(** * Tag reconciliation engine of notion-utils ([_add_gene_list.py])

    A shallow embedding of [RateLimiter] and [add_category_tags], and the
    properties the specification states about them.

    Conventions of the embedding:
    - a JSON object read with fixed keys is a record; a JSON object used as a
      dictionary ([database["properties"]], [page["properties"]],
      [gene_to_categories]) is a [gmap string _];
    - [gene_categories] is a Python dict whose iteration order matters
      ([enumerate(all_tags)]), so it is an association list in insertion
      order;
    - Python [set] values are [gset string];
    - the remote service reached through [requests] is a record of handlers
      over an abstract state; every call the engine makes is also logged in
      a trace of events, in program order;
    - [print] output is not modelled: the summary block is printed exactly
      when the function reaches its [return stats]. *)

From Stdlib Require Import QArith Lqa.
From stdpp Require Import gmap strings list fin_maps.

#[local] Set Warnings "-clear-no-such-hyp".

Open Scope string_scope.
Open Scope list_scope.
Open Scope nat_scope.

(** ** Data model *)

(** One entry of a multi-select schema: [{"name": .., "color": ..}]; options
    read from the service also carry an ["id"]. *)
Record select_option := SelectOption {
  opt_name : string;
  opt_color : string;
  opt_id : option string
}.

(** [database["properties"][column]]: ["type"] and, under ["multi_select"],
    the ["options"] list (absent keys read as the empty list, as
    [.get("multi_select", {}).get("options", [])] does). *)
Record prop_config := PropConfig {
  cfg_type : string;
  cfg_options : list select_option
}.

(** One property value of a page.  [prop_title] and [prop_rich_text] hold
    the ["plain_text"] of each text fragment, [prop_select] the ["name"] of
    the selected option, [prop_multi_select] the ["name"] of each tag.  An
    absent or null key is the empty list, resp. [None]: the source only
    tests these keys for truthiness before reading them. *)
Record prop := Prop_ {
  prop_type : string;
  prop_title : list string;
  prop_rich_text : list string;
  prop_select : option string;
  prop_multi_select : list string
}.

Record page := Page {
  page_id : string;
  page_properties : gmap string prop
}.

(** The body of a query response. *)
Record query_data := QueryData {
  results : list page;
  has_more : bool;
  next_cursor : option string
}.

(** A [requests] response: status, body text, decoded body. *)
Record Response (A : Type) := MkResponse {
  status_code : Z;
  text : string;
  json : A
}.
Arguments MkResponse {A}.
Arguments status_code {A}.
Arguments text {A}.
Arguments json {A}.

(** The [stats] dictionary. *)
Record Stats := MkStats {
  total_pages : nat;
  pages_updated : nat;
  pages_skipped : nat;
  genes_found : nat;
  genes_with_categories : nat;
  tags_added : nat;
  tags_removed : nat;
  errors : list string
}.

Inductive exn :=
| Exception (msg : string)
| ValueError (msg : string).

Inductive Result (A : Type) :=
| Ok (a : A)
| Raise (e : exn).
Arguments Ok {A}.
Arguments Raise {A}.

(** The calls the engine makes, in program order. *)
Inductive Event :=
| Wait
| GetDatabase (database_id : string)
| PatchDatabase (database_id column : string) (options : list select_option)
| PostQuery (database_id : string) (page_size : Z) (start_cursor : option string)
| PatchPage (pid column : string) (tags : list string).

Definition is_schema_patch (e : Event) : bool :=
  match e with PatchDatabase _ _ _ => true | _ => false end.
Definition is_property_patch (e : Event) : bool :=
  match e with PatchPage _ _ _ => true | _ => false end.
Definition is_query (e : Event) : bool :=
  match e with PostQuery _ _ _ => true | _ => false end.
Definition is_write (e : Event) : bool :=
  is_schema_patch e || is_property_patch e.

(** The remote database service, as the engine sees it. *)
Record Service (S : Type) := MkService {
  get_database : string -> S -> Response (gmap string prop_config) * S;
  patch_database : string -> string -> list select_option -> S -> Response unit * S;
  post_query : string -> Z -> option string -> S -> Response query_data * S;
  patch_page : string -> string -> list string -> S -> Response unit * S
}.
Arguments get_database {S}.
Arguments patch_database {S}.
Arguments post_query {S}.
Arguments patch_page {S}.

(** ** Reverse mapping: gene -> categories *)

(** [if gene not in d: d[gene] = []] then [d[gene].append(category)]. *)
Definition add_gene (category : string) (d : gmap string (list string))
    (gene : string) : gmap string (list string) :=
  let d1 := match d !! gene with
            | None => <[gene := []]> d
            | Some _ => d
            end in
  alter (fun cats => cats ++ [category]) gene d1.

Definition build_gene_to_categories
    (gene_categories : list (string * list string)) : gmap string (list string) :=
  foldl (fun d item => foldl (add_gene item.1) d item.2) ∅ gene_categories.

(** ** Step 1: schema reconciliation *)

Definition colors : list string :=
  ["red"; "blue"; "green"; "yellow"; "purple"; "pink"; "orange"; "brown"; "gray"].

(** [existing_options], or the [ValueError] of a column of another type. *)
Definition read_existing_options (multiselect_column : string)
    (properties : gmap string prop_config) : Result (list select_option) :=
  match properties !! multiselect_column with
  | Some prop_config =>
      if bool_decide (cfg_type prop_config = "multi_select")
      then Ok (cfg_options prop_config)
      else Raise (ValueError ("Column '" +:+ multiselect_column +:+
                              "' is not a multi-select type"))
  | None => Ok []
  end.

(** The loop [for i, tag in enumerate(all_tags)], from index [i] on, over the
    pair [(new_options, tags_to_add)]. *)
Fixpoint extend_options (existing_names : gset string) (i : nat)
    (all_tags : list string) (acc : list select_option * list string)
    : list select_option * list string :=
  match all_tags with
  | [] => acc
  | tag :: rest =>
      let acc' :=
        if bool_decide (tag ∈ existing_names) then acc
        else (acc.1 ++ [SelectOption tag
                          (default "" (colors !! (i mod length colors))) None],
              acc.2 ++ [tag]) in
      extend_options existing_names (S i) rest acc'
  end.

Definition schema_update (existing_options : list select_option)
    (all_tags : list string) : list select_option * list string :=
  let existing_names : gset string := list_to_set (opt_name <$> existing_options) in
  extend_options existing_names 0 all_tags (existing_options, []).

(** ** Step 3: per-record tag diff *)

Definition candidate_names : list string :=
  ["gene_name"; "Gene Name"; "Gene"; "Name"; "Title"].

(** The [for prop_name in [...]] loop with its three [break]s; the result is
    [gene_name] ([None] when no candidate matched).  [gene_property_name] is
    never read and is left out. *)
Fixpoint find_gene_name (properties : gmap string prop) (names : list string)
    : option string :=
  match names with
  | [] => None
  | prop_name :: rest =>
      match properties !! prop_name with
      | Some p =>
          if bool_decide (prop_type p = "title") && bool_decide (prop_title p ≠ [])
          then head (prop_title p)
          else if bool_decide (prop_type p = "rich_text")
                  && bool_decide (prop_rich_text p ≠ [])
          then head (prop_rich_text p)
          else if bool_decide (prop_type p = "select")
                  && bool_decide (prop_select p ≠ None)
          then prop_select p
          else find_gene_name properties rest
      | None => find_gene_name properties rest
      end
  end.

(** Python truthiness of [gene_name]: neither [None] nor the empty string. *)
Definition truthy (gene_name : option string) : bool :=
  match gene_name with
  | Some s => negb (bool_decide (s = ""))
  | None => false
  end.

Definition get_existing_tags (multiselect_column : string)
    (properties : gmap string prop) : list string :=
  match properties !! multiselect_column with
  | Some multi_prop =>
      if bool_decide (prop_type multi_prop = "multi_select")
      then prop_multi_select multi_prop
      else []
  | None => []
  end.

Definition get_preserved_tags (all_tags existing_tags : list string) : list string :=
  filter (fun tag => tag ∉ all_tags) existing_tags.

(** [category_tags], and whether the branch that sets it was taken. *)
Definition get_category_tags (gene_to_categories : gmap string (list string))
    (gene_name : option string) : option (list string) :=
  match gene_name with
  | Some g => if truthy gene_name then gene_to_categories !! g else None
  | None => None
  end.

Definition incr_pages_updated (st : Stats) : Stats :=
  MkStats (total_pages st) (S (pages_updated st)) (pages_skipped st)
          (genes_found st) (genes_with_categories st)
          (tags_added st) (tags_removed st) (errors st).
Definition incr_pages_skipped (st : Stats) : Stats :=
  MkStats (total_pages st) (pages_updated st) (S (pages_skipped st))
          (genes_found st) (genes_with_categories st)
          (tags_added st) (tags_removed st) (errors st).
Definition incr_genes_found (st : Stats) : Stats :=
  MkStats (total_pages st) (pages_updated st) (pages_skipped st)
          (S (genes_found st)) (genes_with_categories st)
          (tags_added st) (tags_removed st) (errors st).
Definition incr_genes_with_categories (st : Stats) : Stats :=
  MkStats (total_pages st) (pages_updated st) (pages_skipped st)
          (genes_found st) (S (genes_with_categories st))
          (tags_added st) (tags_removed st) (errors st).
Definition add_tag_counts (added removed : nat) (st : Stats) : Stats :=
  MkStats (total_pages st) (pages_updated st) (pages_skipped st)
          (genes_found st) (genes_with_categories st)
          (tags_added st + added) (tags_removed st + removed) (errors st).
Definition append_error (msg : string) (st : Stats) : Stats :=
  MkStats (total_pages st) (pages_updated st) (pages_skipped st)
          (genes_found st) (genes_with_categories st)
          (tags_added st) (tags_removed st) (errors st ++ [msg]).
Definition init_stats (n : nat) : Stats := MkStats n 0 0 0 0 0 0 [].

(** [new_tags] of one page, as the list sent in the patch. *)
Definition compute_new_tags (all_tags : list string)
    (gene_to_categories : gmap string (list string))
    (multiselect_column : string) (pg : page) : list string :=
  let properties := page_properties pg in
  let gene_name := find_gene_name properties candidate_names in
  let existing_tags := get_existing_tags multiselect_column properties in
  let preserved_tags := get_preserved_tags all_tags existing_tags in
  let category_tags := default [] (get_category_tags gene_to_categories gene_name) in
  preserved_tags ++ category_tags.

(** [existing_set != new_set]. *)
Definition needs_update (all_tags : list string)
    (gene_to_categories : gmap string (list string))
    (multiselect_column : string) (pg : page) : bool :=
  let existing_set : gset string :=
    list_to_set (get_existing_tags multiselect_column (page_properties pg)) in
  let new_set : gset string :=
    list_to_set (compute_new_tags all_tags gene_to_categories multiselect_column pg) in
  bool_decide (existing_set ≠ new_set).

(** ** The engine *)

Section Engine.
Context {S : Type} (svc : Service S).

(** Computations of the engine: they read and change the remote state,
    log their calls, and return or raise. *)
Definition M (A : Type) : Type := S -> Result A * S * list Event.

Definition ret {A} (a : A) : M A := fun s => (Ok a, s, []).
Definition raise {A} (e : exn) : M A := fun s => (Raise e, s, []).
Definition bind {A B} (m : M A) (f : A -> M B) : M B :=
  fun s =>
    match m s with
    | (Ok a, s1, t1) => let '(r, s2, t2) := f a s1 in (r, s2, t1 ++ t2)
    | (Raise e, s1, t1) => (Raise e, s1, t1)
    end.
(** One logged call of a handler. *)
Definition call {A} (e : Event) (h : S -> A * S) : M A :=
  fun s => let '(a, s1) := h s in (Ok a, s1, [e]).
(** [rate_limiter.wait_if_needed()]: logged here, timed in [RateLimiter]. *)
Definition wait_if_needed : M unit := fun s => (Ok tt, s, [Wait]).

Notation "x <- m ;; k" := (bind m (fun x => k))
  (at level 100, m at next level, right associativity).
Notation "m ;;; k" := (bind m (fun _ => k))
  (at level 100, right associativity).

Variables (database_id : string) (gene_categories : list (string * list string))
          (multiselect_column : string) (batch_size : Z) (dry_run : bool).

Definition gene_to_categories := build_gene_to_categories gene_categories.
Definition all_tags : list string := gene_categories.*1.

(** Step 1.  Returns nothing; raises on a failed read, a column of another
    type, or a failed patch. *)
Definition update_schema : M unit :=
  wait_if_needed ;;;
  db_response <- call (GetDatabase database_id) (get_database svc database_id) ;;
  if bool_decide (status_code db_response ≠ 200%Z) then
    raise (Exception ("Failed to fetch database: " +:+ text db_response))
  else
    let database := json db_response in
    match read_existing_options multiselect_column database with
    | Raise e => raise e
    | Ok existing_options =>
        let '(new_options, tags_to_add) := schema_update existing_options all_tags in
        if bool_decide (tags_to_add ≠ []) && negb dry_run then
          wait_if_needed ;;;
          update_response <-
            call (PatchDatabase database_id multiselect_column new_options)
                 (patch_database svc database_id multiselect_column new_options) ;;
          if bool_decide (status_code update_response ≠ 200%Z) then
            raise (Exception ("Failed to update database schema: "
                              +:+ text update_response))
          else ret tt
        else ret tt
    end.

(** Step 2.  The body of [while has_more:] ends in an unconditional
    [break] (line 326): the loop is entered with [has_more = True] and
    [start_cursor = None], runs its body once, and is left.  The values
    assigned to [has_more] and [start_cursor] are never read again. *)
Definition fetch_all_pages : M (list page) :=
  let all_pages := [] in
  let start_cursor : option string := None in
  wait_if_needed ;;;
  let page_size := Z.min batch_size 100 in
  let cursor_sent := if truthy start_cursor then start_cursor else None in
  response <- call (PostQuery database_id page_size cursor_sent)
                   (post_query svc database_id page_size cursor_sent) ;;
  if bool_decide (status_code response ≠ 200%Z) then
    raise (Exception ("Failed to query database: " +:+ text response))
  else
    let data := json response in
    let batch_pages := results data in
    ret (all_pages ++ batch_pages).

(** Step 3, one iteration of [for i, page in enumerate(all_pages, 1)]. *)
Definition process_page (pg : page) (stats : Stats) : M Stats :=
  let pid := page_id pg in
  let properties := page_properties pg in
  let gene_name := find_gene_name properties candidate_names in
  let stats := if truthy gene_name then incr_genes_found stats else stats in
  let existing_tags := get_existing_tags multiselect_column properties in
  let preserved_tags := get_preserved_tags all_tags existing_tags in
  let '(category_tags, stats) :=
    match get_category_tags gene_to_categories gene_name with
    | Some cats => (cats, incr_genes_with_categories stats)
    | None => ([], stats)
    end in
  let new_tags := preserved_tags ++ category_tags in
  let existing_set : gset string := list_to_set existing_tags in
  let new_set : gset string := list_to_set new_tags in
  if bool_decide (existing_set ≠ new_set) then
    let added := new_set ∖ existing_set in
    let removed := existing_set ∖ new_set in
    let stats := add_tag_counts (size added) (size removed) stats in
    if negb dry_run then
      wait_if_needed ;;;
      update_response <- call (PatchPage pid multiselect_column new_tags)
                              (patch_page svc pid multiselect_column new_tags) ;;
      if bool_decide (status_code update_response = 200%Z) then
        ret (incr_pages_updated stats)
      else
        let error_msg := "Failed to update page " +:+ pid +:+ ": "
                         +:+ text update_response in
        ret (append_error error_msg stats)
    else ret (incr_pages_updated stats)
  else ret (incr_pages_skipped stats).

Fixpoint process_pages (pages : list page) (stats : Stats) : M Stats :=
  match pages with
  | [] => ret stats
  | pg :: rest => stats' <- process_page pg stats ;; process_pages rest stats'
  end.

Definition add_category_tags : M Stats :=
  update_schema ;;;
  all_pages <- fetch_all_pages ;;
  process_pages all_pages (init_stats (length all_pages)).

End Engine.

Arguments ret {S A} a s /.
Arguments raise {S A} e s /.
Arguments call {S A} e h s /.
Arguments wait_if_needed {S} s /.

(** ** A well-behaved remote database

    The service itself is external.  To speak of "the remote state after a
    run" the development fixes the behaviour the specification assumes of
    it: reads succeed and change nothing, a schema patch replaces the option
    list of the column, a property patch replaces the tag field of the page
    with that identifier, and a query returns the pages in a fixed order,
    [page_size] at a time, the cursor encoding the offset reached. *)
Module Notion.

Record state := State {
  db_properties : gmap string prop_config;
  db_pages : list page
}.

Definition ok {A} (a : A) : Response A := MkResponse 200%Z "" a.

(** A cursor is a string whose length is the offset of the next batch. *)
Fixpoint cursor_of_offset (n : nat) : string :=
  match n with
  | O => ""
  | S n' => "c" +:+ cursor_of_offset n'
  end.
Definition offset_of_cursor (c : option string) : nat :=
  match c with
  | Some s => String.length s
  | None => 0
  end.

Definition set_tags (column : string) (tags : list string) (pg : page) : page :=
  Page (page_id pg)
       (<[column := Prop_ "multi_select" [] [] None tags]> (page_properties pg)).

Definition get (database_id : string) (r : state)
    : Response (gmap string prop_config) * state :=
  (ok (db_properties r), r).

Definition patch_schema (database_id column : string)
    (options : list select_option) (r : state) : Response unit * state :=
  (ok tt, State (<[column := PropConfig "multi_select" options]> (db_properties r))
                (db_pages r)).

Definition query (database_id : string) (page_size : Z)
    (start_cursor : option string) (r : state) : Response query_data * state :=
  if bool_decide (1 ≤ page_size ≤ 100)%Z then
    let n := Z.to_nat page_size in
    let offset := offset_of_cursor start_cursor in
    let more := bool_decide (offset + n < length (db_pages r)) in
    (ok (QueryData (take n (drop offset (db_pages r))) more
                   (if more then Some (cursor_of_offset (offset + n)) else None)),
     r)
  else (MkResponse 400%Z "validation_error" (QueryData [] false None), r).

Definition patch_tags (pid column : string) (tags : list string) (r : state)
    : Response unit * state :=
  (ok tt,
   State (db_properties r)
         ((fun pg => if bool_decide (page_id pg = pid)
                     then set_tags column tags pg else pg) <$> db_pages r)).

Definition service : Service state :=
  MkService state get patch_schema query patch_tags.

End Notion.

(** ** A remote database that refuses some calls

    The same database behind a front that answers a chosen set of calls
    with status 500 and leaves the database untouched. *)
Module Faulty.

Record plan := Plan {
  fail_get : bool;
  fail_schema_patch : bool;
  fail_query : bool;
  fail_pages : list string
}.

Definition state : Type := plan * Notion.state.

Definition refuse {A} (a : A) : Response A :=
  MkResponse 500%Z "internal_server_error" a.

Definition get (database_id : string) (s : state)
    : Response (gmap string prop_config) * state :=
  if fail_get s.1 then (refuse ∅, s)
  else let '(r, n) := Notion.get database_id s.2 in (r, (s.1, n)).

Definition patch_schema (database_id column : string)
    (options : list select_option) (s : state) : Response unit * state :=
  if fail_schema_patch s.1 then (refuse tt, s)
  else let '(r, n) := Notion.patch_schema database_id column options s.2 in
       (r, (s.1, n)).

Definition query (database_id : string) (page_size : Z)
    (start_cursor : option string) (s : state) : Response query_data * state :=
  if fail_query s.1 then (refuse (QueryData [] false None), s)
  else let '(r, n) := Notion.query database_id page_size start_cursor s.2 in
       (r, (s.1, n)).

Definition patch_tags (pid column : string) (tags : list string) (s : state)
    : Response unit * state :=
  if bool_decide (pid ∈ fail_pages s.1) then (refuse tt, s)
  else let '(r, n) := Notion.patch_tags pid column tags s.2 in (r, (s.1, n)).

Definition service : Service state :=
  MkService state get patch_schema query patch_tags.

End Faulty.

(** ** Sample data

    The scenarios of the specification: categories A = {g1} and B = {g2}, a
    schema that knows the unrelated option X, a record of g1 tagged X and A,
    a record of g2 wrongly tagged A; and a record with no identifying field
    that carries the category tag A. *)
Module Sample.

Definition title_prop (s : string) : prop := Prop_ "title" [s] [] None [].
Definition tags_prop (tags : list string) : prop := Prop_ "multi_select" [] [] None tags.

Definition categories : list (string * list string) :=
  [("A", ["g1"]); ("B", ["g2"])].

Definition record1 : page :=
  Page "p1" (<["Name" := title_prop "g1"]> (<["col" := tags_prop ["X"; "A"]]> ∅)).
Definition record2 : page :=
  Page "p2" (<["Name" := title_prop "g2"]> (<["col" := tags_prop ["A"]]> ∅)).
Definition anonymous : page :=
  Page "p3" (<["col" := tags_prop ["A"]]> ∅).

Definition schema : gmap string prop_config :=
  <["col" := PropConfig "multi_select" [SelectOption "X" "gray" (Some "x1")]]> ∅.

Definition database : Notion.state := Notion.State schema [record1; record2].
Definition database3 : Notion.state :=
  Notion.State schema [record1; record2; anonymous].

End Sample.

(** ** The rate limiter

    Time is read from and spent on an explicit clock.  Timestamps are exact
    rationals (the source computes on floats; rounding is not modelled).
    Every clock primitive may take longer than asked: [lag] lists, in order
    of use, the extra time that passes at each [time.time()] and
    [time.sleep()]; the time the caller spends between two calls of the
    limiter is the lag of the first clock read of the later call.  [slept]
    logs the argument of every [time.sleep()]. *)
Module RateLimiter.
Local Open Scope Q_scope.

Record world := World {
  now : Q;
  lag : list Q;
  slept : list Q
}.

Definition tick (w : world) : world :=
  match lag w with
  | [] => w
  | d :: ds => World (now w + d) ds (slept w)
  end.

Definition time_time (w : world) : Q * world :=
  let w' := tick w in (now w', w').

Definition time_sleep (secs : Q) (w : world) : world :=
  let w' := tick w in World (now w' + secs) (lag w') (slept w' ++ [secs]).

Record t := Make {
  max_per_second : Q;
  min_interval : Q;
  last_request_time : Q
}.


Definition wait_if_needed (self : t) (w : world) : t * world :=
  let '(current_time, w) := time_time w in
  let time_since_last := current_time - last_request_time self in
  let w :=
    if Qlt_le_dec time_since_last (min_interval self) then
      let sleep_time := min_interval self - time_since_last in
      time_sleep sleep_time w
    else w in
  let '(t_end, w) := time_time w in
  (Make (max_per_second self) (min_interval self) t_end, w).




End RateLimiter.

(** ** Notions used in the statements *)

Definition palette_option (i : nat) (tag : string) : select_option :=
  SelectOption tag (default "" (colors !! (i mod length colors))) None.

(** The pairs (category, gene) listed in a CategoryMap. *)
Definition listed (gene_categories : list (string * list string))
    (category gene : string) : Prop :=
  ∃ genes, (category, genes) ∈ gene_categories ∧ gene ∈ genes.

(** The member identifier of a record: the value found by the candidate
    loop when it is usable (not empty), nothing otherwise. *)
Definition resolved_identifier (pg : page) : option string :=
  let gene_name := find_gene_name (page_properties pg) candidate_names in
  if truthy gene_name then gene_name else None.

(** The identifier statistics of one iteration of the page loop, and its
    tag counts. *)
Definition count_identifier (gene_categories : list (string * list string))
    (pg : page) (stats : Stats) : Stats :=
  let stats1 := if truthy (find_gene_name (page_properties pg) candidate_names)
                then incr_genes_found stats else stats in
  match resolved_identifier pg ≫= (gene_to_categories gene_categories !!.) with
  | Some _ => incr_genes_with_categories stats1
  | None => stats1
  end.

Definition count_diff (gene_categories : list (string * list string))
    (multiselect_column : string) (pg : page) (stats : Stats) : Stats :=
  let existing_set : gset string :=
    list_to_set (get_existing_tags multiselect_column (page_properties pg)) in
  let new_set : gset string :=
    list_to_set (compute_new_tags (all_tags gene_categories)
                   (gene_to_categories gene_categories) multiselect_column pg) in
  add_tag_counts (size (new_set ∖ existing_set)) (size (existing_set ∖ new_set))
                 (count_identifier gene_categories pg stats).

(** The records of a run that are counted: updated, unchanged or failed. *)
Definition accounted (st : Stats) : nat :=
  pages_updated st + pages_skipped st + length (errors st).

(** A record conforms to a tag column when its value there, if it has one,
    is a multi-select value. *)
Definition conforms (multiselect_column : string) (pg : page) : Prop :=
  match page_properties pg !! multiselect_column with
  | Some p => prop_type p = "multi_select"
  | None => True
  end.

(** A record after the engine handled it with every write accepted. *)
Definition reconciled (gene_categories : list (string * list string))
    (multiselect_column : string) (pg : page) : page :=
  if needs_update (all_tags gene_categories) (gene_to_categories gene_categories)
                  multiselect_column pg
  then Notion.set_tags multiselect_column
         (compute_new_tags (all_tags gene_categories)
            (gene_to_categories gene_categories) multiselect_column pg) pg
  else pg.


(** ** The command-line entry point

    [add_tags_to_gene_list] parses its arguments, loads the YAML file and
    calls [add_category_tags].  The parsed arguments and the loaded mapping
    are its inputs here; the statistics returned by the engine are dropped,
    as in the source.  [args.column] is parsed and never read. *)
Record cli_args := CliArgs {
  arg_database_id : string;
  arg_token : option string;
  arg_column : option string;
  arg_input_file_path : string
}.

Definition add_tags_to_gene_list {S} (svc : Service S) (args : cli_args)
    (gene_tags : list (string * list string)) : M (S := S) unit :=
  bind (add_category_tags svc (arg_database_id args) gene_tags
                          "protein_gene_sets" 10 false)
       (fun _ => ret tt).

(** ** Further notions used in the statements *)

(** The categories listing a gene, in CategoryMap order, once per listing. *)
Definition categories_listing (gene_categories : list (string * list string))
    (gene : string) : list string :=
  item ← gene_categories;
  replicate (length (filter (fun g => g = gene) item.2)) item.1.

(** The identifier one property yields on its own. *)
Definition identifier_of (p : prop) : option string :=
  if bool_decide (prop_type p = "title") then head (prop_title p)
  else if bool_decide (prop_type p = "rich_text") then head (prop_rich_text p)
  else if bool_decide (prop_type p = "select") then prop_select p
  else None.

Definition is_wait (e : Event) : bool :=
  match e with Wait => true | _ => false end.

(** The requests of a trace: everything but the limiter calls. *)
Definition requests (tr : list Event) : list Event :=
  filter (fun e => is_wait e = false) tr.

(** The records a run fetches: the result list of its one query, made on
    the state the schema step leaves. *)
Definition fetched {S} (svc : Service S) (database_id : string)
    (gene_categories : list (string * list string)) (multiselect_column : string)
    (batch_size : Z) (dry_run : bool) (s : S) : list page :=
  results (json (post_query svc database_id (Z.min batch_size 100) None
    (update_schema svc database_id gene_categories multiselect_column
                   dry_run s).1.2).1).

Definition existing_set (multiselect_column : string) (pg : page) : gset string :=
  list_to_set (get_existing_tags multiselect_column (page_properties pg)).

Definition new_set (gene_categories : list (string * list string))
    (multiselect_column : string) (pg : page) : gset string :=
  list_to_set (compute_new_tags (all_tags gene_categories)
                 (gene_to_categories gene_categories) multiselect_column pg).

(** The property patch the engine sends for a record. *)
Definition patch_event (gene_categories : list (string * list string))
    (multiselect_column : string) (pg : page) : Event :=
  PatchPage (page_id pg) multiselect_column
    (compute_new_tags (all_tags gene_categories)
       (gene_to_categories gene_categories) multiselect_column pg).

(** The records of a list that need an update. *)
Definition stale (gene_categories : list (string * list string))
    (multiselect_column : string) (pages : list page) : list page :=
  filter (fun pg => needs_update (all_tags gene_categories)
                      (gene_to_categories gene_categories)
                      multiselect_column pg = true) pages.

(** The message recorded for a refused property patch. *)
Definition error_message (pg : page) (body : string) : string :=
  "Failed to update page " +:+ page_id pg +:+ ": " +:+ body.

(** ** More sample data *)
Module Sample2.

(** A record of g1 whose first candidate field holds an empty text. *)
Definition hidden : page :=
  Page "p4" (<["gene_name" := Sample.title_prop ""]>
             (<["Name" := Sample.title_prop "g1"]>
              (<["col" := Sample.tags_prop []]> ∅))).

(** [Sample.record2] with one more field, which is no candidate. *)
Definition record2_annotated : page :=
  Page "p2" (<["Symbol" := Sample.title_prop "g1"]> (page_properties Sample.record2)).

(** A schema whose tag column is a single-select field. *)
Definition select_schema : gmap string prop_config :=
  <["col" := PropConfig "select" []]> ∅.

(** A database with an empty schema and twelve records, all of g2 and
    wrongly tagged A in the column the command line uses; the identifier of
    the n-th record is a string of n letters. *)
Definition numbered (n : nat) : page :=
  Page (Notion.cursor_of_offset n) (<["Name" := Sample.title_prop "g2"]>
                   (<["protein_gene_sets" := Sample.tags_prop ["A"]]> ∅)).
Definition twelve : Notion.state := Notion.State ∅ (numbered <$> seq 0 12).

Definition args : cli_args :=
  CliArgs "258fd1e7c2e180ba8ea0d909f6b739b3" None (Some "col") "data.yml".

End Sample2.

(** Whether a record is counted in [genes_found], resp. in
    [genes_with_categories]. *)
Definition has_identifier (pg : page) : Prop :=
  is_Some (resolved_identifier pg).

Definition has_categories (gene_categories : list (string * list string))
    (pg : page) : Prop :=
  is_Some (resolved_identifier pg ≫= (gene_to_categories gene_categories !!.)).

(** A request with the limiter call that precedes it. *)
Definition rate_limited (request : Event) : list Event := [Wait; request].
(** * Properties *)

(** ** The scenarios of the specification, run *)

Example scenario_record_unchanged :
  let tags := compute_new_tags (all_tags Sample.categories)
                (gene_to_categories Sample.categories) "col" Sample.record1 in
  tags = ["X"; "A"]
  ∧ needs_update (all_tags Sample.categories) (gene_to_categories Sample.categories)
                 "col" Sample.record1 = false.
Proof. split; vm_compute; reflexivity. Qed.

Example scenario_stale_category :
  let tags := compute_new_tags (all_tags Sample.categories)
                (gene_to_categories Sample.categories) "col" Sample.record2 in
  tags = ["B"]
  ∧ needs_update (all_tags Sample.categories) (gene_to_categories Sample.categories)
                 "col" Sample.record2 = true.
Proof. split; vm_compute; reflexivity. Qed.

Example scenario_schema :
  schema_update [SelectOption "X" "gray" (Some "x1")] (all_tags Sample.categories)
    = ([SelectOption "X" "gray" (Some "x1"); SelectOption "A" "red" None;
        SelectOption "B" "blue" None], ["A"; "B"]).
Proof. vm_compute. reflexivity. Qed.

Example scenario_run :
  let run := add_category_tags Notion.service "db" Sample.categories "col" 10 false
                               Sample.database in
  run.1.1 = Ok (MkStats 2 1 1 2 2 1 1 [])
  ∧ run.2 = [Wait; GetDatabase "db"; Wait;
             PatchDatabase "db" "col"
               [SelectOption "X" "gray" (Some "x1"); SelectOption "A" "red" None;
                SelectOption "B" "blue" None];
             Wait; PostQuery "db" 10 None; Wait; PatchPage "p2" "col" ["B"]]
  ∧ Notion.db_pages run.1.2
    = [Sample.record1; Notion.set_tags "col" ["B"] Sample.record2].
Proof. split; [|split]; vm_compute; reflexivity. Qed.

(** ** Schema reconciliation *)

(** What the loop appends: one option per tag absent from the schema, in
    tag order, coloured by the tag's position in the whole tag list. *)
Lemma extend_options_appends (names : gset string) (tags : list string) :
  ∀ (i : nat) (opts : list select_option) (added_tags : list string),
  ∃ added : list select_option,
    extend_options names i tags (opts, added_tags)
      = (opts ++ added, added_tags ++ (opt_name <$> added))
    ∧ ∀ o, o ∈ added ↔
        ∃ j tag, tags !! j = Some tag ∧ (tag ∉ names) ∧ o = palette_option (i + j) tag.
Proof.
  induction tags as [|tag rest IH]; intros i opts added_tags.
  - exists []. simpl. rewrite !app_nil_r. split; [done|].
    intros o. split; [by intros ?%elem_of_nil|].
    by intros (j & t & Hj & _).
  - cbn [extend_options fst snd]. fold (palette_option i tag).
    case_bool_decide as Hin.
    + destruct (IH (S i) opts added_tags) as (added & -> & Hadded).
      exists added. split; [done|].
      intros o. rewrite Hadded. split.
      * intros (j & t & Hj & Hn & ->). exists (S j), t.
        by rewrite Nat.add_succ_r.
      * intros ([|j] & t & Hj & Hn & ->); simplify_eq/=; [done|].
        exists j, t. by rewrite Nat.add_succ_r.
    + destruct (IH (S i) (opts ++ [palette_option i tag]) (added_tags ++ [tag]))
        as (added & Heq & Hadded).
      exists (palette_option i tag :: added). split.
      * rewrite Heq. by rewrite <- !app_assoc.
      * intros o. rewrite elem_of_cons, Hadded. split.
        -- intros [-> | (j & t & Hj & Hn & ->)].
           ++ exists 0, tag. by rewrite Nat.add_0_r.
           ++ exists (S j), t. by rewrite Nat.add_succ_r.
        -- intros ([|j] & t & Hj & Hn & ->); simplify_eq/=.
           ++ left. by rewrite Nat.add_0_r.
           ++ right. exists j, t. by rewrite Nat.add_succ_r.
Qed.

Lemma schema_update_appends (existing_options : list select_option)
    (all_tags : list string) :
  ∃ added : list select_option,
    schema_update existing_options all_tags
      = (existing_options ++ added, opt_name <$> added)
    ∧ ∀ o, o ∈ added ↔
        ∃ i tag, all_tags !! i = Some tag
                 ∧ (tag ∉ (opt_name <$> existing_options))
                 ∧ o = palette_option i tag.
Proof.
  unfold schema_update.
  destruct (extend_options_appends
              (list_to_set (opt_name <$> existing_options)) all_tags
              0 existing_options []) as (added & -> & Hadded).
  exists added. split; [done|].
  intros o. rewrite Hadded. by setoid_rewrite elem_of_list_to_set.
Qed.

Lemma schema_update_names_cover (existing_options : list select_option)
    (tags : list string) (tag : string) :
  tag ∈ tags → tag ∈ (opt_name <$> (schema_update existing_options tags).1).
Proof.
  intros Htag.
  destruct (schema_update_appends existing_options tags) as (added & -> & Hadded).
  simpl. rewrite fmap_app. apply elem_of_app.
  destruct (decide (tag ∈ (opt_name <$> existing_options))) as [|Hnew]; [by left|right].
  apply list_elem_of_lookup in Htag as [i Hi].
  apply list_elem_of_fmap. exists (palette_option i tag). split; [done|].
  apply Hadded. by exists i, tag.
Qed.

Lemma schema_update_nothing_new (existing_options : list select_option)
    (tags : list string) :
  (∀ tag, tag ∈ tags → tag ∈ (opt_name <$> existing_options)) ↔
  (schema_update existing_options tags).2 = [].
Proof.
  destruct (schema_update_appends existing_options tags) as (added & -> & Hadded).
  simpl. split.
  - intros Hcover. destruct added as [|o added]; [done|]. exfalso.
    destruct (proj1 (Hadded o)) as (i & tag & Hi & Hnew & _); [by left|].
    apply Hnew, Hcover. apply list_elem_of_lookup. by exists i.
  - intros Hnil tag Htag. apply fmap_nil_inv in Hnil. subst added.
    destruct (decide (tag ∈ (opt_name <$> existing_options))) as [|Hnew]; [done|].
    apply list_elem_of_lookup in Htag as [i Hi].
    exfalso. eapply elem_of_nil, Hadded. by exists i, tag.
Qed.

Lemma schema_update_settled (existing_options : list select_option)
    (tags : list string) :
  (∀ tag, tag ∈ tags → tag ∈ (opt_name <$> existing_options)) →
  schema_update existing_options tags = (existing_options, []).
Proof.
  intros Hcover. pose proof (proj1 (schema_update_nothing_new _ _) Hcover) as Hnil.
  destruct (schema_update_appends existing_options tags) as (added & Heq & _).
  rewrite Heq in Hnil. simpl in Hnil. apply fmap_nil_inv in Hnil. subst added.
  by rewrite Heq, app_nil_r.
Qed.


Lemma palette_lookup (i : nat) : is_Some (colors !! (i mod length colors)).
Proof. apply lookup_lt_is_Some. apply Nat.mod_upper_bound. done. Qed.

(** C6 (as amended).  Every category absent from the schema is appended as
    an option whose colour is [colors[i mod 9]], [i] being the position of
    the category among all the categories of the CategoryMap, present in
    the schema or not; nothing else is appended. *)
Theorem palette_color_by_category_index (existing_options : list select_option)
    (gene_categories : list (string * list string)) :
  ∃ added : list select_option,
    schema_update existing_options (all_tags gene_categories)
      = (existing_options ++ added, opt_name <$> added)
    ∧ ∀ o, o ∈ added ↔
        ∃ i tag color,
          all_tags gene_categories !! i = Some tag
          ∧ (tag ∉ (opt_name <$> existing_options))
          ∧ colors !! (i mod length colors) = Some color
          ∧ o = SelectOption tag color None.
Proof.
  destruct (schema_update_appends existing_options (all_tags gene_categories))
    as (added & Heq & Hadded).
  exists added. split; [done|].
  intros o. rewrite Hadded. split.
  - intros (i & tag & Hi & Hn & ->).
    destruct (palette_lookup i) as [color Hc].
    exists i, tag, color. unfold palette_option. by rewrite Hc.
  - intros (i & tag & color & Hi & Hn & Hc & ->).
    exists i, tag. unfold palette_option. by rewrite Hc.
Qed.

(** C6, the claim as stated fails: with category "A" already in the schema,
    the first new category "B" is coloured [colors[1]], not [colors[0]]. *)
Lemma palette_index_counts_existing_categories :
  schema_update [SelectOption "A" "gray" (Some "a1")]
                (all_tags [("A", ["g1"]); ("B", ["g2"])])
    = ([SelectOption "A" "gray" (Some "a1"); SelectOption "B" "blue" None], ["B"])
  ∧ colors !! (0 mod length colors) = Some "red"
  ∧ colors !! (1 mod length colors) = Some "blue"
  ∧ "blue" ≠ "red".
Proof. repeat split; done. Qed.

(** ** Membership index *)

Lemma add_gene_lookup (category : string) (d : gmap string (list string))
    (gene g : string) :
  add_gene category d gene !! g =
    if decide (gene = g) then Some (default [] (d !! gene) ++ [category])
    else d !! g.
Proof.
  unfold add_gene. case_decide as Hg.
  - subst g. destruct (d !! gene) as [cats|] eqn:Hd.
    + by rewrite lookup_alter_eq, Hd.
    + by rewrite lookup_alter_eq, lookup_insert_eq.
  - rewrite lookup_alter_ne by done.
    destruct (d !! gene); [done|]. by rewrite lookup_insert_ne.
Qed.

Lemma add_genes_lookup (category : string) (genes : list string) :
  ∀ (d : gmap string (list string)) (g : string),
  (∀ c, c ∈ default [] (foldl (add_gene category) d genes !! g) ↔
        c ∈ default [] (d !! g) ∨ (c = category ∧ g ∈ genes))
  ∧ (d !! g ≠ Some [] → foldl (add_gene category) d genes !! g ≠ Some []).
Proof.
  induction genes as [|gene rest IH]; intros d g; simpl.
  - split; [|done]. intros c. rewrite elem_of_nil. naive_solver.
  - destruct (IH (add_gene category d gene) g) as [IH1 IH2]. split.
    + intros c. rewrite IH1, add_gene_lookup, elem_of_cons.
      case_decide as Hg; simpl.
      * subst g. rewrite elem_of_app, list_elem_of_singleton. naive_solver.
      * naive_solver.
    + intros Hd. apply IH2. rewrite add_gene_lookup.
      case_decide; [|done]. intros [= Hnil]. by apply app_nil in Hnil as [_ ?].
Qed.

Lemma build_gene_to_categories_lookup (gene_categories : list (string * list string))
    (g : string) :
  (∀ c, c ∈ default [] (build_gene_to_categories gene_categories !! g) ↔
        listed gene_categories c g)
  ∧ build_gene_to_categories gene_categories !! g ≠ Some [].
Proof.
  unfold build_gene_to_categories.
  enough (∀ (d : gmap string (list string)),
    (∀ c, c ∈ default []
            (foldl (fun d item => foldl (add_gene item.1) d item.2) d gene_categories !! g)
          ↔ c ∈ default [] (d !! g) ∨ listed gene_categories c g)
    ∧ (d !! g ≠ Some [] →
       foldl (fun d item => foldl (add_gene item.1) d item.2) d gene_categories !! g
         ≠ Some [])) as Hgen.
  { destruct (Hgen ∅) as [H1 H2]. split.
    - intros c. rewrite H1, lookup_empty. simpl. rewrite elem_of_nil. naive_solver.
    - apply H2. by rewrite lookup_empty. }
  induction gene_categories as [|[category genes] rest IH]; intros d; simpl.
  - split; [|done]. intros c. unfold listed. setoid_rewrite elem_of_nil. naive_solver.
  - destruct (IH (foldl (add_gene category) d genes)) as [IH1 IH2].
    destruct (add_genes_lookup category genes d g) as [Hin Hne]. split.
    + intros c. rewrite IH1, Hin. unfold listed.
      setoid_rewrite elem_of_cons. split.
      * intros [[?|[-> ?]]|(gs & ? & ?)]; [by left|right..].
        -- exists genes. auto.
        -- exists gs. auto.
      * intros [?|(gs & [[= -> ->]|?] & ?)]; [by left; left|by left; right|right].
        exists gs. auto.
    + intros Hd. apply IH2, Hne, Hd.
Qed.

Lemma listed_all_tags (gene_categories : list (string * list string))
    (category gene : string) :
  listed gene_categories category gene → category ∈ all_tags gene_categories.
Proof.
  intros (genes & Hin & _). unfold all_tags.
  apply list_elem_of_fmap. by exists (category, genes).
Qed.

(** ** Per-record tag diff *)

Lemma get_category_tags_resolved (d : gmap string (list string)) (pg : page) :
  get_category_tags d (find_gene_name (page_properties pg) candidate_names)
    = resolved_identifier pg ≫= (d !!.).
Proof.
  unfold get_category_tags, resolved_identifier.
  destruct (find_gene_name _ _) as [g|]; [|done].
  by destruct (truthy (Some g)).
Qed.

Lemma process_page_eq {S} (svc : Service S)
    (gene_categories : list (string * list string)) (multiselect_column : string)
    (dry_run : bool) (pg : page) (stats : Stats) (s : S) :
  let new_tags := compute_new_tags (all_tags gene_categories)
                    (gene_to_categories gene_categories) multiselect_column pg in
  process_page svc gene_categories multiselect_column dry_run pg stats s =
    if needs_update (all_tags gene_categories) (gene_to_categories gene_categories)
                    multiselect_column pg
    then
      let stats3 := count_diff gene_categories multiselect_column pg stats in
      if dry_run then (Ok (incr_pages_updated stats3), s, [])
      else
        let r := patch_page svc (page_id pg) multiselect_column new_tags s in
        (Ok (if bool_decide (status_code r.1 = 200%Z)
             then incr_pages_updated stats3
             else append_error ("Failed to update page " +:+ page_id pg +:+ ": "
                                +:+ text r.1) stats3),
         r.2, [Wait; PatchPage (page_id pg) multiselect_column new_tags])
    else (Ok (incr_pages_skipped (count_identifier gene_categories pg stats)), s, []).
Proof.
  intros new_tags. subst new_tags.
  unfold process_page, needs_update, count_diff, count_identifier, compute_new_tags.
  rewrite <- !get_category_tags_resolved.
  destruct (get_category_tags _ _) as [cats|]; simpl;
    (case_bool_decide; [|done]);
    (destruct dry_run; simpl; [done|]);
    unfold bind; simpl;
    destruct (patch_page svc _ _ _ s) as [resp s1]; simpl;
    by case_bool_decide.
Qed.

(** C2.  Tag-set correctness: a tag is in the tag list the engine computes
    for a record exactly when it is a current tag that is no category name,
    or a category listing the record's identifier; and that list is what the
    property patch carries whenever it differs, as a set, from the current
    tags. *)
Theorem tag_set_correct {S} (svc : Service S)
    (gene_categories : list (string * list string)) (multiselect_column : string)
    (pg : page) :
  let new_tags := compute_new_tags (all_tags gene_categories)
                    (gene_to_categories gene_categories) multiselect_column pg in
  let existing_tags := get_existing_tags multiselect_column (page_properties pg) in
  (∀ tag, tag ∈ new_tags ↔
      (tag ∈ existing_tags ∧ ¬ (∃ genes, (tag, genes) ∈ gene_categories))
      ∨ (∃ gene, resolved_identifier pg = Some gene ∧ listed gene_categories tag gene))
  ∧ (∀ stats s,
       (process_page svc gene_categories multiselect_column false pg stats s).2 =
         if bool_decide (list_to_set existing_tags ≠@{gset string} list_to_set new_tags)
         then [Wait; PatchPage (page_id pg) multiselect_column new_tags]
         else []).
Proof.
  intros new_tags existing_tags. split.
  - intros tag. subst new_tags. unfold compute_new_tags.
    rewrite get_category_tags_resolved, elem_of_app.
    fold existing_tags. unfold get_preserved_tags.
    rewrite list_elem_of_filter.
    assert (tag ∈ all_tags gene_categories ↔ ∃ genes, (tag, genes) ∈ gene_categories)
      as ->.
    { unfold all_tags. rewrite list_elem_of_fmap. split.
      - intros ([c genes] & -> & Hin). by exists genes.
      - intros (genes & Hin). by exists (tag, genes). }
    assert (tag ∈ default [] (resolved_identifier pg
                              ≫= (gene_to_categories gene_categories !!.))
            ↔ ∃ gene, resolved_identifier pg = Some gene
                      ∧ listed gene_categories tag gene) as ->.
    { destruct (resolved_identifier pg) as [g|]; simpl.
      - rewrite (proj1 (build_gene_to_categories_lookup gene_categories g)).
        naive_solver.
      - rewrite elem_of_nil. naive_solver. }
    tauto.
  - intros stats s. rewrite process_page_eq. unfold needs_update.
    fold existing_tags. fold new_tags. by case_bool_decide.
Qed.

(** ** The three steps, with the monad unfolded *)

Lemma update_schema_eq {S} (svc : Service S) (database_id : string)
    (gene_categories : list (string * list string)) (multiselect_column : string)
    (dry_run : bool) (s : S) :
  update_schema svc database_id gene_categories multiselect_column dry_run s =
    let g := get_database svc database_id s in
    let read := [Wait; GetDatabase database_id] in
    if bool_decide (status_code g.1 ≠ 200%Z) then
      (Raise (Exception ("Failed to fetch database: " +:+ text g.1)), g.2, read)
    else
      match read_existing_options multiselect_column (json g.1) with
      | Raise e => (Raise e, g.2, read)
      | Ok existing_options =>
          let u := schema_update existing_options (all_tags gene_categories) in
          if bool_decide (u.2 ≠ []) && negb dry_run then
            let p := patch_database svc database_id multiselect_column u.1 g.2 in
            (if bool_decide (status_code p.1 ≠ 200%Z)
             then Raise (Exception ("Failed to update database schema: " +:+ text p.1))
             else Ok tt,
             p.2,
             read ++ [Wait; PatchDatabase database_id multiselect_column u.1])
          else (Ok tt, g.2, read)
      end.
Proof.
  unfold update_schema, bind; simpl.
  destruct (get_database svc database_id s) as [g s1]; simpl.
  case_bool_decide; [done|].
  destruct (read_existing_options _ _) as [existing|e]; [|done].
  destruct (schema_update _ _) as [new_options tags_to_add]; simpl.
  destruct (bool_decide (tags_to_add ≠ []) && negb dry_run); [|done]; simpl.
  destruct (patch_database svc _ _ _ s1) as [p s2]; simpl.
  by case_bool_decide.
Qed.

Lemma fetch_all_pages_eq {S} (svc : Service S) (database_id : string)
    (batch_size : Z) (s : S) :
  fetch_all_pages svc database_id batch_size s =
    let q := post_query svc database_id (Z.min batch_size 100) None s in
    (if bool_decide (status_code q.1 ≠ 200%Z)
     then Raise (Exception ("Failed to query database: " +:+ text q.1))
     else Ok (results (json q.1)),
     q.2, [Wait; PostQuery database_id (Z.min batch_size 100) None]).
Proof.
  unfold fetch_all_pages, bind; simpl.
  destruct (post_query svc _ _ _ s) as [q s1]; simpl.
  by case_bool_decide.
Qed.

Lemma count_identifier_frame (gene_categories : list (string * list string))
    (pg : page) (st : Stats) :
  let st' := count_identifier gene_categories pg st in
  total_pages st' = total_pages st ∧ pages_updated st' = pages_updated st
  ∧ pages_skipped st' = pages_skipped st ∧ errors st' = errors st.
Proof.
  unfold count_identifier.
  destruct (truthy _), (_ ≫= _); done.
Qed.

Lemma count_diff_frame (gene_categories : list (string * list string))
    (multiselect_column : string) (pg : page) (st : Stats) :
  let st' := count_diff gene_categories multiselect_column pg st in
  total_pages st' = total_pages st ∧ pages_updated st' = pages_updated st
  ∧ pages_skipped st' = pages_skipped st ∧ errors st' = errors st.
Proof. apply count_identifier_frame. Qed.

Lemma accounted_count_identifier (gene_categories : list (string * list string))
    (pg : page) (st : Stats) :
  accounted (count_identifier gene_categories pg st) = accounted st.
Proof.
  unfold accounted.
  by destruct (count_identifier_frame gene_categories pg st) as (_ & -> & -> & ->).
Qed.

Lemma accounted_count_diff (gene_categories : list (string * list string))
    (multiselect_column : string) (pg : page) (st : Stats) :
  accounted (count_diff gene_categories multiselect_column pg st) = accounted st.
Proof. apply accounted_count_identifier. Qed.

Lemma accounted_incr_pages_updated (st : Stats) :
  accounted (incr_pages_updated st) = S (accounted st).
Proof. done. Qed.

Lemma accounted_incr_pages_skipped (st : Stats) :
  accounted (incr_pages_skipped st) = S (accounted st).
Proof. unfold accounted. simpl. lia. Qed.

Lemma accounted_append_error (msg : string) (st : Stats) :
  accounted (append_error msg st) = S (accounted st).
Proof. unfold accounted. simpl. rewrite length_app. simpl. lia. Qed.

(** The page loop never raises; it only waits and patches pages; it counts
    every page once. *)
Lemma process_pages_returns {S} (svc : Service S)
    (gene_categories : list (string * list string)) (multiselect_column : string)
    (dry_run : bool) (pages : list page) :
  ∀ (stats : Stats) (s : S),
  ∃ stats' s' tr,
    process_pages svc gene_categories multiselect_column dry_run pages stats s
      = (Ok stats', s', tr)
    ∧ total_pages stats' = total_pages stats
    ∧ accounted stats' = accounted stats + length pages
    ∧ Forall (fun e => e = Wait ∨ is_property_patch e = true) tr.
Proof.
  induction pages as [|pg rest IH]; intros stats s.
  - exists stats, s, []. simpl. split; [done|]. split; [done|].
    split; [lia|done].
  - cbn [process_pages]. unfold bind. rewrite process_page_eq.
    pose proof (count_identifier_frame gene_categories pg stats) as (Ht1 & _).
    pose proof (count_diff_frame gene_categories multiselect_column pg stats)
      as (Ht2 & _).
    destruct (needs_update _ _ _ pg); [destruct dry_run|]; cbn zeta.
    + destruct (IH (incr_pages_updated
                      (count_diff gene_categories multiselect_column pg stats)) s)
        as (st' & s' & tr & -> & Ht & Ha & Htr).
      exists st', s', tr. split; [done|]. split; [by rewrite Ht|]. split; [|done].
      rewrite Ha, accounted_incr_pages_updated, accounted_count_diff. simpl. lia.
    + set (r := patch_page svc _ _ _ s). cbv beta iota zeta.
      match goal with |- context [process_pages _ _ _ _ rest ?st _] =>
        destruct (IH st r.2) as (st' & s' & tr & -> & Ht & Ha & Htr) end.
      eexists st', s', _. split; [done|].
      split; [by rewrite Ht; case_bool_decide|].
      split.
      * rewrite Ha. case_bool_decide.
        -- rewrite accounted_incr_pages_updated, accounted_count_diff. simpl. lia.
        -- rewrite accounted_append_error, accounted_count_diff. simpl. lia.
      * simpl. constructor; [by left|]. constructor; [by right|done].
    + destruct (IH (incr_pages_skipped (count_identifier gene_categories pg stats)) s)
        as (st' & s' & tr & -> & Ht & Ha & Htr).
      exists st', s', tr. split; [done|]. split; [by rewrite Ht|]. split; [|done].
      rewrite Ha, accounted_incr_pages_skipped, accounted_count_identifier.
      simpl. lia.
Qed.

(** What a returning run went through. *)
Lemma add_category_tags_returned {S} (svc : Service S) (database_id : string)
    (gene_categories : list (string * list string)) (multiselect_column : string)
    (batch_size : Z) (dry_run : bool) (s : S) (stats : Stats) (s' : S)
    (tr : list Event) :
  add_category_tags svc database_id gene_categories multiselect_column batch_size
                    dry_run s = (Ok stats, s', tr) →
  ∃ s1 tr1 q s2 tr3,
    update_schema svc database_id gene_categories multiselect_column dry_run s
      = (Ok tt, s1, tr1)
    ∧ post_query svc database_id (Z.min batch_size 100) None s1 = (q, s2)
    ∧ status_code q = 200%Z
    ∧ process_pages svc gene_categories multiselect_column dry_run
        (results (json q)) (init_stats (length (results (json q)))) s2
        = (Ok stats, s', tr3)
    ∧ tr = tr1 ++ [Wait; PostQuery database_id (Z.min batch_size 100) None] ++ tr3.
Proof.
  unfold add_category_tags, bind.
  destruct (update_schema _ _ _ _ _ s) as [[[[]|e] s1] tr1]; [|done].
  rewrite fetch_all_pages_eq. cbn zeta.
  destruct (post_query svc _ _ _ s1) as [q s2] eqn:Hq; simpl.
  case_bool_decide as Hst; [done|].
  destruct (process_pages _ _ _ _ _ _ s2) as [[r s3] tr3] eqn:Hp.
  intros [= -> -> <-].
  exists s1, tr1, q, s2, tr3. repeat split; done.
Qed.

(** ** Statistics *)

(** C10.  Accounting invariant: in a run that returns, every fetched record
    is counted exactly once, as updated, unchanged or failed, and
    [total_pages] is the number of records the query returned. *)
Theorem statistics_account_for_every_record {S} (svc : Service S)
    (database_id : string) (gene_categories : list (string * list string))
    (multiselect_column : string) (batch_size : Z) (dry_run : bool) (s : S)
    (stats : Stats) (s' : S) (tr : list Event) :
  add_category_tags svc database_id gene_categories multiselect_column batch_size
                    dry_run s = (Ok stats, s', tr) →
  pages_updated stats + pages_skipped stats + length (errors stats)
    = total_pages stats
  ∧ total_pages stats =
      length (results (json (post_query svc database_id (Z.min batch_size 100) None
        (update_schema svc database_id gene_categories multiselect_column
                       dry_run s).1.2).1)).
Proof.
  intros Hrun.
  apply add_category_tags_returned in Hrun
    as (s1 & tr1 & q & s2 & tr3 & Hschema & Hq & _ & Hloop & _).
  rewrite Hschema. cbn [fst snd]. rewrite Hq. cbn [fst snd].
  destruct (process_pages_returns svc gene_categories multiselect_column dry_run
              (results (json q)) (init_stats (length (results (json q)))) s2)
    as (st' & s3 & tr' & Heq & Ht & Ha & _).
  rewrite Hloop in Heq. injection Heq as <- <- <-.
  split; [|done]. rewrite Ht. exact Ha.
Qed.

(** C10, witness: three records, one of them refused by the service. *)
Lemma statistics_account_for_every_record_witness :
  let st := MkStats 3 1 1 2 2 1 2 ["Failed to update page p3: internal_server_error"] in
  let s0 := (Faulty.Plan false false false ["p3"], Sample.database3) in
  let run := add_category_tags Faulty.service "db" Sample.categories "col" 10 false s0 in
  run = (Ok st, run.1.2, run.2)
  ∧ pages_updated st + pages_skipped st + length (errors st) = total_pages st.
Proof.
  intros st s0 run.
  assert (run = (Ok st, run.1.2, run.2)) as Hrun by (vm_compute; reflexivity).
  split; [exact Hrun|].
  exact (proj1 (statistics_account_for_every_record Faulty.service "db"
                  Sample.categories "col" 10 false s0 st run.1.2 run.2 Hrun)).
Defined.

(** ** Simulation mode *)

Lemma process_pages_dry_run {S} (svc : Service S)
    (gene_categories : list (string * list string)) (multiselect_column : string)
    (pages : list page) :
  ∀ (stats : Stats) (s : S),
  ∃ stats',
    process_pages svc gene_categories multiselect_column true pages stats s
      = (Ok stats', s, [])
    ∧ total_pages stats' = total_pages stats
    ∧ pages_updated stats' = pages_updated stats
        + length (filter (fun pg => needs_update (all_tags gene_categories)
                                      (gene_to_categories gene_categories)
                                      multiselect_column pg = true) pages)
    ∧ errors stats' = errors stats.
Proof.
  induction pages as [|pg rest IH]; intros stats s.
  - exists stats. simpl. split; [done|]. split; [done|]. split; [lia|done].
  - cbn [process_pages]. unfold bind. rewrite process_page_eq.
    pose proof (count_identifier_frame gene_categories pg stats)
      as (Ht1 & Hu1 & _ & He1).
    pose proof (count_diff_frame gene_categories multiselect_column pg stats)
      as (Ht2 & Hu2 & _ & He2).
    rewrite filter_cons.
    destruct (needs_update _ _ _ pg) eqn:Hneed; cbv beta iota zeta.
    + destruct (IH (incr_pages_updated
                      (count_diff gene_categories multiselect_column pg stats)) s)
        as (st' & -> & Ht & Hu & He).
      exists st'. split; [done|]. rewrite decide_True by done.
      split; [by rewrite Ht|]. split; [|by rewrite He].
      rewrite Hu. cbn [pages_updated incr_pages_updated length]. rewrite Hu2. lia.
    + destruct (IH (incr_pages_skipped (count_identifier gene_categories pg stats)) s)
        as (st' & -> & Ht & Hu & He).
      exists st'. split; [done|]. rewrite decide_False by done.
      split; [by rewrite Ht|]. split; [|by rewrite He].
      rewrite Hu. cbn [pages_updated incr_pages_skipped]. by rewrite Hu1.
Qed.

(** C7.  Simulation mode: with the simulation flag set the run issues no
    schema patch and no property patch, so a remote whose reads change
    nothing is left as it was; and a run that returns counts as updated
    every fetched record whose computed tag set differs from its current
    one, with no error recorded. *)
Theorem simulation_issues_no_writes {S} (svc : Service S)
    (database_id : string) (gene_categories : list (string * list string))
    (multiselect_column : string) (batch_size : Z) (s : S)
    (r : Result Stats) (s' : S) (tr : list Event) :
  add_category_tags svc database_id gene_categories multiselect_column batch_size
                    true s = (r, s', tr) →
  Forall (fun e => is_write e = false) tr
  ∧ ((∀ x, (get_database svc database_id x).2 = x) →
     (∀ n c x, (post_query svc database_id n c x).2 = x) → s' = s)
  ∧ ∀ stats, r = Ok stats →
      let fetched :=
        results (json (post_query svc database_id (Z.min batch_size 100) None
                         (get_database svc database_id s).2).1) in
      total_pages stats = length fetched
      ∧ pages_updated stats =
          length (filter (fun pg => needs_update (all_tags gene_categories)
                                      (gene_to_categories gene_categories)
                                      multiselect_column pg = true) fetched)
      ∧ errors stats = [].
Proof.
  unfold add_category_tags, bind.
  rewrite update_schema_eq. cbn zeta.
  set (g := get_database svc database_id s).
  assert (Forall (fun e => is_write e = false) [Wait; GetDatabase database_id])
    as Hread by (repeat constructor).
  case_bool_decide as Hg.
  { intros [= <- <- <-]. split; [done|]. split; [|done].
    intros Hget _. apply Hget. }
  destruct (read_existing_options _ _) as [existing|e].
  2: { intros [= <- <- <-]. split; [done|]. split; [|done].
       intros Hget _. apply Hget. }
  cbn [negb]. rewrite andb_false_r.
  rewrite fetch_all_pages_eq. cbn zeta.
  set (q := post_query svc database_id (Z.min batch_size 100) None g.2).
  assert (Forall (fun e => is_write e = false)
            ([Wait; GetDatabase database_id]
             ++ [Wait; PostQuery database_id (Z.min batch_size 100) None]))
    as Hquery by (repeat constructor).
  assert ((∀ x, (get_database svc database_id x).2 = x) →
          (∀ n c x, (post_query svc database_id n c x).2 = x) → q.2 = s) as Hstate.
  { intros Hget Hpost. unfold q. rewrite Hpost. apply Hget. }
  case_bool_decide as Hq.
  { intros [= <- <- <-]. done. }
  destruct (process_pages_dry_run svc gene_categories multiselect_column
              (results (json q.1)) (init_stats (length (results (json q.1)))) q.2)
    as (st' & -> & Ht & Hu & He).
  intros [= <- <- <-].
  split; [repeat constructor|]. split; [done|].
  intros stats [= <-]. cbn zeta. done.
Qed.

(** C7, witness: a simulation on the sample database, where one record
    would be updated and two categories are missing from the schema. *)
Lemma simulation_issues_no_writes_witness :
  let st := MkStats 2 1 1 2 2 1 1 [] in
  let tr := [Wait; GetDatabase "db"; Wait; PostQuery "db" 10 None] in
  add_category_tags Notion.service "db" Sample.categories "col" 10 true
                    Sample.database = (Ok st, Sample.database, tr)
  ∧ Forall (fun e => is_write e = false) tr
  ∧ pages_updated st = 1.
Proof.
  intros st tr.
  assert (add_category_tags Notion.service "db" Sample.categories "col" 10 true
            Sample.database = (Ok st, Sample.database, tr)) as Hrun
    by (vm_compute; reflexivity).
  split; [exact Hrun|].
  split; [|reflexivity].
  exact (proj1 (simulation_issues_no_writes Notion.service "db" Sample.categories
                  "col" 10 Sample.database (Ok st) Sample.database tr Hrun)).
Defined.

(** ** Fatal errors *)

(** C8 (as amended).  A failed schema read, a failed schema patch and a
    failed query each end the run with an exception: no statistics are
    returned, and nothing is requested after the failed call. *)
Theorem schema_failure_raises {S} (svc : Service S)
    (database_id : string) (gene_categories : list (string * list string))
    (multiselect_column : string) (batch_size : Z) (dry_run : bool) (s : S) :
  let run := add_category_tags svc database_id gene_categories multiselect_column
                               batch_size dry_run s in
  let g := get_database svc database_id s in
  (status_code g.1 ≠ 200%Z →
     run = (Raise (Exception ("Failed to fetch database: " +:+ text g.1)), g.2,
            [Wait; GetDatabase database_id]))
  ∧ (∀ existing_options,
       status_code g.1 = 200%Z →
       read_existing_options multiselect_column (json g.1) = Ok existing_options →
       let u := schema_update existing_options (all_tags gene_categories) in
       let p := patch_database svc database_id multiselect_column u.1 g.2 in
       u.2 ≠ [] → dry_run = false → status_code p.1 ≠ 200%Z →
       run = (Raise (Exception ("Failed to update database schema: " +:+ text p.1)),
              p.2,
              [Wait; GetDatabase database_id; Wait;
               PatchDatabase database_id multiselect_column u.1]))
  ∧ (∀ s1 tr1,
       update_schema svc database_id gene_categories multiselect_column dry_run s
         = (Ok tt, s1, tr1) →
       let q := post_query svc database_id (Z.min batch_size 100) None s1 in
       status_code q.1 ≠ 200%Z →
       run = (Raise (Exception ("Failed to query database: " +:+ text q.1)), q.2,
              tr1 ++ [Wait; PostQuery database_id (Z.min batch_size 100) None])).
Proof.
  intros run g. subst run. unfold add_category_tags, bind.
  split; [|split].
  - intros Hg. rewrite update_schema_eq. cbn zeta. fold g.
    by rewrite bool_decide_true.
  - intros existing Hg Hread Hu -> Hp.
    rewrite update_schema_eq. cbn zeta. fold g.
    rewrite bool_decide_false by (intros ?; done).
    rewrite Hread. rewrite (bool_decide_true _ Hu). cbn [negb andb].
    by rewrite (bool_decide_true _ Hp).
  - intros s1 tr1 -> Hq. rewrite fetch_all_pages_eq. cbn zeta.
    by rewrite (bool_decide_true _ Hq).
Qed.

(** C8, witness: a refused schema read on the sample database. *)
Lemma schema_failure_raises_witness :
  let s := (Faulty.Plan true false false [], Sample.database) in
  status_code (get_database Faulty.service "db" s).1 ≠ 200%Z
  ∧ add_category_tags Faulty.service "db" Sample.categories "col" 10 false s
    = (Raise (Exception ("Failed to fetch database: "
                         +:+ text (get_database Faulty.service "db" s).1)),
       (get_database Faulty.service "db" s).2, [Wait; GetDatabase "db"]).
Proof.
  intros s.
  assert (status_code (get_database Faulty.service "db" s).1 ≠ 200%Z) as Hfail
    by (by vm_compute).
  split; [exact Hfail|].
  exact (proj1 (schema_failure_raises Faulty.service "db" Sample.categories "col"
                  10 false s) Hfail).
Defined.

(** C8, the claim as stated fails: when the schema read fails the run raises
    and returns no statistics; so it does when the schema patch fails. *)
Lemma no_summary_after_schema_failure :
  add_category_tags Faulty.service "db" Sample.categories "col" 10 false
                    (Faulty.Plan true false false [], Sample.database)
    = (Raise (Exception "Failed to fetch database: internal_server_error"),
       (Faulty.Plan true false false [], Sample.database),
       [Wait; GetDatabase "db"])
  ∧ (add_category_tags Faulty.service "db" Sample.categories "col" 10 false
                       (Faulty.Plan false true false [], Sample.database)).1.1
    = Raise (Exception "Failed to update database schema: internal_server_error").
Proof. split; vm_compute; reflexivity. Qed.

(** ** Records without identifier *)

Lemma list_to_set_filter_eq (P : string → Prop) `{!∀ x, Decision (P x)}
    (l : list string) :
  list_to_set (filter P l) =@{gset string} list_to_set l ↔ Forall P l.
Proof.
  rewrite Forall_forall. split.
  - intros Heq x Hx.
    assert (x ∈ (list_to_set (filter P l) : gset string)) as Hin
      by (rewrite Heq; by apply elem_of_list_to_set).
    apply elem_of_list_to_set, list_elem_of_filter in Hin. tauto.
  - intros Hall. apply set_eq. intros x.
    rewrite !elem_of_list_to_set, list_elem_of_filter. naive_solver.
Qed.

Lemma count_identifier_unresolved (gene_categories : list (string * list string))
    (pg : page) (stats : Stats) :
  resolved_identifier pg = None → count_identifier gene_categories pg stats = stats.
Proof.
  unfold count_identifier. intros Hnone. rewrite Hnone. simpl.
  unfold resolved_identifier in Hnone.
  destruct (truthy _) eqn:Ht; [|done].
  rewrite Hnone in Ht. done.
Qed.

(** C4 (as amended).  A record whose identifier cannot be resolved is
    counted in no identifier statistic and is handled as a member of no
    category: the tags computed for it are its current tags less the
    category names.  If none of its tags is a category name nothing is
    requested and it is counted as unchanged; if one is, and the run is not
    a simulation, a property patch removes the category names. *)
Theorem unresolved_identifier_belongs_to_no_category {S} (svc : Service S)
    (gene_categories : list (string * list string)) (multiselect_column : string)
    (dry_run : bool) (pg : page) (stats : Stats) (s : S) :
  resolved_identifier pg = None →
  let existing_tags := get_existing_tags multiselect_column (page_properties pg) in
  let preserved_tags := get_preserved_tags (all_tags gene_categories) existing_tags in
  let r := process_page svc gene_categories multiselect_column dry_run pg stats s in
  compute_new_tags (all_tags gene_categories) (gene_to_categories gene_categories)
                   multiselect_column pg = preserved_tags
  ∧ (∃ st', r.1.1 = Ok st'
            ∧ total_pages st' = total_pages stats
            ∧ genes_found st' = genes_found stats
            ∧ genes_with_categories st' = genes_with_categories stats)
  ∧ ((∀ tag, tag ∈ existing_tags → tag ∉ all_tags gene_categories) →
       r = (Ok (incr_pages_skipped stats), s, []))
  ∧ ((∃ tag, tag ∈ existing_tags ∧ tag ∈ all_tags gene_categories) →
       dry_run = false →
       r.2 = [Wait; PatchPage (page_id pg) multiselect_column preserved_tags]).
Proof.
  intros Hnone existing_tags preserved_tags r.
  assert (compute_new_tags (all_tags gene_categories)
            (gene_to_categories gene_categories) multiselect_column pg
          = preserved_tags) as Hnew.
  { unfold compute_new_tags. rewrite get_category_tags_resolved, Hnone. simpl.
    by rewrite app_nil_r. }
  assert (needs_update (all_tags gene_categories) (gene_to_categories gene_categories)
            multiselect_column pg = false
          ↔ ∀ tag, tag ∈ existing_tags → tag ∉ all_tags gene_categories) as Hneed.
  { unfold needs_update. rewrite Hnew. fold existing_tags.
    rewrite bool_decide_eq_false. unfold preserved_tags, get_preserved_tags.
    rewrite <- Forall_forall, <- list_to_set_filter_eq.
    split; [|by intros Heq Hne; apply Hne].
    intros Hnn. apply dec_stable. intros Hne. apply Hnn. intros Heq. by apply Hne. }
  split; [exact Hnew|].
  subst r. rewrite process_page_eq. cbn zeta. rewrite Hnew.
  unfold count_diff. rewrite (count_identifier_unresolved _ _ _ Hnone).
  destruct (needs_update _ _ _ pg) eqn:Hupd.
  - split.
    { destruct dry_run; cbn [fst]; [by eexists|].
      eexists. split; [done|]. by case_bool_decide. }
    split.
    { intros Hall. apply Hneed in Hall. congruence. }
    by intros _ ->.
  - split; [by eexists|]. split; [done|].
    intros (tag & Hin & Hcat) _. exfalso.
    by apply (proj1 Hneed eq_refl tag Hin).
Qed.

(** C4, witness: the sample record without identifier. *)
Lemma unresolved_identifier_belongs_to_no_category_witness :
  resolved_identifier Sample.anonymous = None
  ∧ (process_page Notion.service Sample.categories "col" false Sample.anonymous
       (init_stats 1) (Notion.State Sample.schema [Sample.anonymous])).2
    = [Wait; PatchPage "p3" "col" []].
Proof.
  assert (resolved_identifier Sample.anonymous = None) as Hnone
    by (vm_compute; reflexivity).
  split; [exact Hnone|].
  refine (proj2 (proj2 (proj2
    (unresolved_identifier_belongs_to_no_category Notion.service Sample.categories
       "col" false Sample.anonymous (init_stats 1)
       (Notion.State Sample.schema [Sample.anonymous]) Hnone))) _ eq_refl).
  exists "A". split; vm_compute; repeat constructor.
Defined.

(** C4, the claim as stated fails: a record with no identifying field that
    carries the category tag A is patched (its tags become empty) and is
    counted as updated. *)
Lemma unresolved_record_is_patched :
  resolved_identifier Sample.anonymous = None
  ∧ add_category_tags Notion.service "db" Sample.categories "col" 10 false
                      (Notion.State Sample.schema [Sample.anonymous])
    = (Ok (MkStats 1 1 0 0 0 0 1 []),
       Notion.State
         (<["col" := PropConfig "multi_select"
                       [SelectOption "X" "gray" (Some "x1");
                        SelectOption "A" "red" None;
                        SelectOption "B" "blue" None]]> Sample.schema)
         [Notion.set_tags "col" [] Sample.anonymous],
       [Wait; GetDatabase "db"; Wait;
        PatchDatabase "db" "col" [SelectOption "X" "gray" (Some "x1");
                                  SelectOption "A" "red" None;
                                  SelectOption "B" "blue" None];
        Wait; PostQuery "db" 10 None; Wait; PatchPage "p3" "col" []]).
Proof. split; vm_compute; reflexivity. Qed.

(** ** Pagination *)

Lemma no_query_among_patches (tr : list Event) :
  Forall (fun e => e = Wait ∨ is_property_patch e = true) tr →
  filter (fun e => is_query e = true) tr = [].
Proof.
  induction 1 as [|e tr He _ IH]; [done|].
  rewrite filter_cons, IH.
  destruct He as [->|He]; [done|]. by destruct e.
Qed.

Lemma update_schema_trace {S} (svc : Service S) (database_id : string)
    (gene_categories : list (string * list string)) (multiselect_column : string)
    (dry_run : bool) (s : S) :
  let tr := (update_schema svc database_id gene_categories multiselect_column
                           dry_run s).2 in
  tr = [Wait; GetDatabase database_id]
  ∨ ∃ options, tr = [Wait; GetDatabase database_id; Wait;
                     PatchDatabase database_id multiselect_column options].
Proof.
  rewrite update_schema_eq. cbn zeta.
  case_bool_decide; [by left|].
  destruct (read_existing_options _ _) as [existing|e]; [|by left].
  destruct (_ && _); [|by left].
  right. by eexists.
Qed.

(** C3 fails on the code.  Whatever the service answers, a run issues at
    most one query; on a database of two records read one at a time the
    first answer announces more data and a cursor, the second batch holds
    the other record, and the run still stops after the first query and
    reports a single record. *)
Theorem fetch_stops_after_first_batch :
  (∀ {S} (svc : Service S) (database_id : string)
     (gene_categories : list (string * list string)) (multiselect_column : string)
     (batch_size : Z) (dry_run : bool) (s : S),
     length (filter (fun e => is_query e = true)
               (add_category_tags svc database_id gene_categories multiselect_column
                                  batch_size dry_run s).2) ≤ 1)
  ∧ (let first := (Notion.query "db" 1 None Sample.database).1 in
     let second := (Notion.query "db" 1 (next_cursor (json first)) Sample.database).1 in
     let run := add_category_tags Notion.service "db" Sample.categories "col" 1 false
                                  Sample.database in
     has_more (json first) = true
     ∧ results (json first) = [Sample.record1]
     ∧ has_more (json second) = false
     ∧ results (json second) = [Sample.record2]
     ∧ filter (fun e => is_query e = true) run.2 = [PostQuery "db" 1 None]
     ∧ run.1.1 = Ok (MkStats 1 0 1 1 1 0 0 [])).
Proof.
  split.
  - intros S svc database_id gene_categories multiselect_column batch_size dry_run s.
    unfold add_category_tags, bind.
    pose proof (update_schema_trace svc database_id gene_categories
                  multiselect_column dry_run s) as Htr. cbn zeta in Htr.
    destruct (update_schema _ _ _ _ _ s) as [[r s1] tr1]. cbn [snd] in Htr.
    assert (filter (fun e => is_query e = true) tr1 = []) as Hno
      by (destruct Htr as [->|[options ->]]; done).
    destruct r as [[]|e]; [|cbn [snd]; rewrite Hno; simpl; lia].
    rewrite fetch_all_pages_eq. cbn zeta.
    case_bool_decide.
    + cbn [snd]. rewrite filter_app, Hno. simpl. lia.
    + match goal with |- context [process_pages _ _ _ _ ?ps ?st ?x] =>
        destruct (process_pages_returns svc gene_categories multiselect_column
                    dry_run ps st x) as (st' & s' & tr3 & -> & _ & _ & Hp) end.
      cbn [snd]. rewrite !filter_app, Hno, (no_query_among_patches _ Hp).
      simpl. lia.
  - vm_compute. repeat split; reflexivity.
Qed.

(** ** Idempotence *)

Lemma find_gene_name_set_tags (multiselect_column : string) (tags : list string)
    (pg : page) (names : list string) :
  conforms multiselect_column pg →
  find_gene_name (page_properties (Notion.set_tags multiselect_column tags pg)) names
    = find_gene_name (page_properties pg) names.
Proof.
  intros Hconf. induction names as [|name rest IH]; [done|].
  cbn [find_gene_name Notion.set_tags page_properties].
  cbn [Notion.set_tags page_properties] in IH. rewrite IH.
  destruct (decide (name = multiselect_column)) as [->|Hne].
  - rewrite lookup_insert_eq. unfold conforms in Hconf. simpl.
    destruct (page_properties pg !! multiselect_column) as [p|]; [|done].
    rewrite Hconf. done.
  - by rewrite lookup_insert_ne.
Qed.

Lemma get_existing_tags_set_tags (multiselect_column : string) (tags : list string)
    (pg : page) :
  get_existing_tags multiselect_column
    (page_properties (Notion.set_tags multiselect_column tags pg)) = tags.
Proof.
  unfold get_existing_tags, Notion.set_tags. simpl. by rewrite lookup_insert_eq.
Qed.

Lemma category_tags_are_categories (gene_categories : list (string * list string))
    (gene_name : option string) (tag : string) :
  tag ∈ default [] (get_category_tags (gene_to_categories gene_categories) gene_name) →
  tag ∈ all_tags gene_categories.
Proof.
  unfold get_category_tags. destruct gene_name as [g|]; [|by intros ?%elem_of_nil].
  destruct (truthy (Some g)); [|by intros ?%elem_of_nil].
  intros Hin. apply (build_gene_to_categories_lookup gene_categories g) in Hin.
  by eapply listed_all_tags.
Qed.

Lemma filter_none_satisfy {A} (P : A → Prop) `{!∀ x, Decision (P x)} (l : list A) :
  Forall (fun x => ¬ P x) l → filter P l = [].
Proof.
  induction 1 as [|x l Hx _ IH]; [done|].
  by rewrite filter_cons, decide_False, IH.
Qed.

(** The tags computed for a record are a fixed point of the computation. *)
Lemma compute_new_tags_set_tags (gene_categories : list (string * list string))
    (multiselect_column : string) (pg : page) :
  conforms multiselect_column pg →
  let new_tags := compute_new_tags (all_tags gene_categories)
                    (gene_to_categories gene_categories) multiselect_column pg in
  compute_new_tags (all_tags gene_categories) (gene_to_categories gene_categories)
    multiselect_column (Notion.set_tags multiselect_column new_tags pg) = new_tags.
Proof.
  intros Hconf new_tags. unfold compute_new_tags at 1.
  rewrite get_existing_tags_set_tags, find_gene_name_set_tags by done.
  subst new_tags. unfold compute_new_tags.
  set (cats := default [] (get_category_tags _ _)).
  set (existing := get_existing_tags _ _).
  f_equal. unfold get_preserved_tags. rewrite filter_app.
  assert (filter (fun tag => tag ∉ all_tags gene_categories) cats = []) as ->.
  { apply filter_none_satisfy, Forall_forall. intros tag Hin Hnot.
    apply Hnot. by eapply category_tags_are_categories. }
  rewrite app_nil_r. apply list_filter_filter_l. by intros x.
Qed.

Lemma reconciled_needs_no_update (gene_categories : list (string * list string))
    (multiselect_column : string) (pg : page) :
  conforms multiselect_column pg →
  needs_update (all_tags gene_categories) (gene_to_categories gene_categories)
    multiselect_column (reconciled gene_categories multiselect_column pg) = false.
Proof.
  intros Hconf. unfold reconciled.
  destruct (needs_update _ _ _ pg) eqn:Hneed; [|done].
  unfold needs_update.
  rewrite compute_new_tags_set_tags, get_existing_tags_set_tags by done.
  by apply bool_decide_eq_false; intros Hne.
Qed.

Lemma page_id_reconciled (gene_categories : list (string * list string))
    (multiselect_column : string) (pg : page) :
  page_id (reconciled gene_categories multiselect_column pg) = page_id pg.
Proof. unfold reconciled. by destruct (needs_update _ _ _ pg). Qed.

(** After a returning run the schema lists every category. *)
Lemma notion_schema_step (database_id : string)
    (gene_categories : list (string * list string)) (multiselect_column : string)
    (R s1 : Notion.state) (tr : list Event) :
  update_schema Notion.service database_id gene_categories multiselect_column
                false R = (Ok tt, s1, tr) →
  Notion.db_pages s1 = Notion.db_pages R
  ∧ ∃ existing_options,
      read_existing_options multiselect_column (Notion.db_properties s1)
        = Ok existing_options
      ∧ ∀ tag, tag ∈ all_tags gene_categories →
               tag ∈ (opt_name <$> existing_options).
Proof.
  rewrite update_schema_eq. cbn zeta. simpl.
  destruct (read_existing_options multiselect_column (Notion.db_properties R))
    as [existing|e] eqn:Hread; [|done].
  case_bool_decide as Hnew; simpl.
  - intros [= <- <-]. split; [done|]. simpl.
    exists (schema_update existing (all_tags gene_categories)).1. split.
    + unfold read_existing_options. by rewrite lookup_insert_eq.
    + intros tag Htag. by apply schema_update_names_cover.
  - intros [= <- <-]. split; [done|].
    exists existing. split; [done|].
    apply schema_update_nothing_new.
    by destruct (decide ((schema_update existing (all_tags gene_categories)).2 = [])).
Qed.

Lemma notion_schema_settled (database_id : string)
    (gene_categories : list (string * list string)) (multiselect_column : string)
    (dry_run : bool) (R : Notion.state) (existing_options : list select_option) :
  read_existing_options multiselect_column (Notion.db_properties R)
    = Ok existing_options →
  (∀ tag, tag ∈ all_tags gene_categories → tag ∈ (opt_name <$> existing_options)) →
  update_schema Notion.service database_id gene_categories multiselect_column
                dry_run R = (Ok tt, R, [Wait; GetDatabase database_id]).
Proof.
  intros Hread Hcover. rewrite update_schema_eq. cbn zeta. simpl.
  rewrite Hread, (schema_update_settled _ _ Hcover). done.
Qed.

Lemma patch_tags_unique (f : page → page) (pre post : list page) (pg : page) :
  NoDup (page_id <$> (pre ++ pg :: post)) →
  (fun q => if bool_decide (page_id q = page_id pg) then f q else q)
    <$> (pre ++ pg :: post) = pre ++ f pg :: post.
Proof.
  rewrite fmap_app, fmap_cons. intros Hnd.
  apply NoDup_app in Hnd as (_ & Hpre & Hpost).
  apply NoDup_cons in Hpost as [Hpost _].
  assert (∀ l : list page, page_id pg ∉ (page_id <$> l) →
            (fun q => if bool_decide (page_id q = page_id pg) then f q else q) <$> l = l)
    as Hother.
  { induction l as [|q l IH]; [done|]. rewrite fmap_cons, not_elem_of_cons.
    intros [Hq Hl]. rewrite fmap_cons, IH by done.
    by rewrite bool_decide_false by done. }
  rewrite fmap_app, fmap_cons, bool_decide_true by done.
  rewrite !Hother; [done|done|].
  intros Hin. apply (Hpre _ Hin). by left.
Qed.

(** On the well-behaved remote, the page loop of a real run leaves every
    record it was given reconciled and touches no other record. *)
Lemma process_pages_reconciles (gene_categories : list (string * list string))
    (multiselect_column : string) (properties : gmap string prop_config)
    (todo post : list page) :
  ∀ (pre : list page) (stats : Stats),
  NoDup (page_id <$> (pre ++ todo ++ post)) →
  ∃ stats' tr,
    process_pages Notion.service gene_categories multiselect_column false todo stats
      (Notion.State properties (pre ++ todo ++ post))
    = (Ok stats',
       Notion.State properties
         (pre ++ (reconciled gene_categories multiselect_column <$> todo) ++ post),
       tr).
Proof.
  induction todo as [|pg rest IH]; intros pre stats Hnd.
  - by exists stats, [].
  - rewrite <- app_comm_cons in Hnd |- *.
    cbn [process_pages]. unfold bind. rewrite process_page_eq. cbn zeta.
    assert (NoDup (page_id <$> ((pre ++ [reconciled gene_categories
                                           multiselect_column pg]) ++ rest ++ post)))
      as Hnd'.
    { rewrite <- app_assoc. simpl. rewrite fmap_app, fmap_cons, page_id_reconciled.
      by rewrite fmap_app, fmap_cons in Hnd. }
    rewrite fmap_cons.
    destruct (needs_update _ _ _ pg) eqn:Hneed.
    + cbn [patch_page Notion.service Notion.patch_tags Notion.db_properties
           Notion.db_pages fst snd].
      rewrite (patch_tags_unique _ pre (rest ++ post) pg) by exact Hnd.
      cbn [Notion.ok status_code]. rewrite bool_decide_true by done.
      edestruct (IH (pre ++ [reconciled gene_categories multiselect_column pg]))
        as (st' & tr & Heq); [exact Hnd'|].
      rewrite <- app_assoc in Heq. cbn [app] in Heq.
      unfold reconciled in Heq at 1. rewrite Hneed in Heq.
      rewrite Heq. eexists _, _. f_equal. f_equal. f_equal.
      by rewrite <- app_assoc.
    + edestruct (IH (pre ++ [reconciled gene_categories multiselect_column pg]))
        as (st' & tr & Heq); [exact Hnd'|].
      rewrite <- app_assoc in Heq. cbn [app] in Heq.
      unfold reconciled in Heq at 1. rewrite Hneed in Heq.
      rewrite Heq. eexists _, _. f_equal. f_equal. f_equal.
      by rewrite <- app_assoc.
Qed.

(** A loop over records that need no update requests nothing. *)
Lemma process_pages_unchanged {S} (svc : Service S)
    (gene_categories : list (string * list string)) (multiselect_column : string)
    (dry_run : bool) (pages : list page) :
  Forall (fun pg => needs_update (all_tags gene_categories)
                      (gene_to_categories gene_categories)
                      multiselect_column pg = false) pages →
  ∀ (stats : Stats) (s : S),
  ∃ stats',
    process_pages svc gene_categories multiselect_column dry_run pages stats s
      = (Ok stats', s, [])
    ∧ pages_updated stats' = pages_updated stats.
Proof.
  induction 1 as [|pg rest Hpg _ IH]; intros stats s.
  - by exists stats.
  - cbn [process_pages]. unfold bind. rewrite process_page_eq, Hpg.
    destruct (IH (incr_pages_skipped (count_identifier gene_categories pg stats)) s)
      as (st' & -> & Hu).
    exists st'. split; [done|]. rewrite Hu. cbn [pages_updated incr_pages_skipped].
    by destruct (count_identifier_frame gene_categories pg stats) as (_ & -> & _).
Qed.

Lemma take_fmap_take_drop {A} (f : A → A) (l : list A) :
  ∀ n, take n ((f <$> take n l) ++ drop n l) = f <$> take n l.
Proof.
  induction l as [|x l IH]; intros [|n]; simpl; try done.
  by rewrite IH.
Qed.

Lemma notion_query_ok (database_id : string) (page_size : Z) (R : Notion.state) :
  (1 ≤ page_size ≤ 100)%Z →
  ∃ more cursor,
    Notion.query database_id page_size None R
      = (Notion.ok (QueryData (take (Z.to_nat page_size) (Notion.db_pages R))
                              more cursor), R).
Proof.
  intros Hsize. unfold Notion.query. rewrite bool_decide_true by done.
  simpl. by eexists _, _.
Qed.

Lemma notion_query_refused (database_id : string) (page_size : Z) (R : Notion.state) :
  ¬ (1 ≤ page_size ≤ 100)%Z →
  status_code (Notion.query database_id page_size None R).1 = 400%Z.
Proof. intros Hsize. unfold Notion.query. by rewrite bool_decide_false. Qed.

(** C1.  Idempotence: on a remote that accepts every write, whose records
    have distinct identifiers and hold a multi-select value in the tag
    column, a second run started on the state a first, real run left behind
    returns, requests no schema patch and no property patch, leaves that
    state as it is, and reports no record updated - in simulation mode or
    not. *)
Theorem reconciliation_idempotent (database_id : string)
    (gene_categories : list (string * list string)) (multiselect_column : string)
    (batch_size : Z) (R : Notion.state)
    (stats1 : Stats) (R1 : Notion.state) (tr1 : list Event) :
  NoDup (page_id <$> Notion.db_pages R) →
  Forall (conforms multiselect_column) (Notion.db_pages R) →
  add_category_tags Notion.service database_id gene_categories multiselect_column
                    batch_size false R = (Ok stats1, R1, tr1) →
  ∀ dry_run, ∃ stats2 tr2,
    add_category_tags Notion.service database_id gene_categories multiselect_column
                      batch_size dry_run R1 = (Ok stats2, R1, tr2)
    ∧ filter (fun e => is_write e = true) tr2 = []
    ∧ pages_updated stats2 = 0.
Proof.
  intros Hnd Hconf Hrun dry_run.
  apply add_category_tags_returned in Hrun
    as (s1 & trA & q & s2 & tr3 & Hschema & Hq & Hstatus & Hloop & _).
  apply notion_schema_step in Hschema as (Hpages & existing & Hread & Hcover).
  cbn [post_query Notion.service] in Hq.
  destruct (decide (1 ≤ Z.min batch_size 100 ≤ 100)%Z) as [Hsize|Hsize].
  2: { pose proof (notion_query_refused database_id _ s1 Hsize) as H400.
       rewrite Hq in H400. simpl in H400. congruence. }
  destruct (notion_query_ok database_id _ s1 Hsize) as (more & cursor & Hq1).
  rewrite Hq1 in Hq. injection Hq as <- <-. cbn [json Notion.ok results] in Hloop.
  set (n := Z.to_nat (Z.min batch_size 100)) in *.
  destruct s1 as [properties pages]. cbn [Notion.db_pages Notion.db_properties] in *.
  subst pages.
  destruct (process_pages_reconciles gene_categories multiselect_column properties
              (take n (Notion.db_pages R)) (drop n (Notion.db_pages R)) []
              (init_stats (length (take n (Notion.db_pages R)))))
    as (st' & tr' & Hloop').
  { cbn [app]. by rewrite take_drop. }
  cbn [app] in Hloop'. rewrite take_drop in Hloop'.
  rewrite Hloop in Hloop'. injection Hloop' as <- -> <-.
  set (R1 := Notion.State properties _).
  (* the second run *)
  unfold add_category_tags, bind.
  rewrite (notion_schema_settled database_id gene_categories multiselect_column
             dry_run R1 existing Hread Hcover).
  rewrite fetch_all_pages_eq. cbn zeta. cbn [post_query Notion.service].
  destruct (notion_query_ok database_id _ R1 Hsize) as (more' & cursor' & ->).
  cbn [fst snd Notion.ok status_code json results].
  rewrite bool_decide_false by (intros Hne; by apply Hne).
  fold n. cbn [R1 Notion.db_pages]. rewrite take_fmap_take_drop.
  edestruct (process_pages_unchanged Notion.service gene_categories
               multiselect_column dry_run
               (reconciled gene_categories multiselect_column
                  <$> take n (Notion.db_pages R))) as (st2 & -> & Hupd).
  { apply Forall_fmap, Forall_forall. intros pg Hin.
    apply reconciled_needs_no_update.
    apply (proj1 (Forall_forall _ _) Hconf).
    by eapply subseteq_take. }
  exists st2. eexists. split; [done|]. split; [done|].
  by rewrite Hupd.
Qed.

Lemma sample_database_distinct_ids :
  NoDup (page_id <$> Notion.db_pages Sample.database).
Proof.
  apply (bool_decide_unpack (NoDup (page_id <$> Notion.db_pages Sample.database))).
  by vm_compute.
Qed.

Lemma sample_database_conforms :
  Forall (conforms "col") (Notion.db_pages Sample.database).
Proof. repeat constructor. Qed.

(** C1, witness: a second run after a first run on the sample database. *)
Lemma reconciliation_idempotent_witness :
  let run1 := add_category_tags Notion.service "db" Sample.categories "col" 10 false
                                Sample.database in
  run1.1.1 = Ok (MkStats 2 1 1 2 2 1 1 [])
  ∧ ∃ stats2 tr2,
      add_category_tags Notion.service "db" Sample.categories "col" 10 false run1.1.2
        = (Ok stats2, run1.1.2, tr2)
      ∧ filter (fun e => is_write e = true) tr2 = []
      ∧ pages_updated stats2 = 0.
Proof.
  intros run1.
  assert (run1 = (Ok (MkStats 2 1 1 2 2 1 1 []), run1.1.2, run1.2)) as Hrun
    by (vm_compute; reflexivity).
  split; [by rewrite Hrun|].
  exact (reconciliation_idempotent "db" Sample.categories "col" 10 Sample.database
           _ _ _ sample_database_distinct_ids sample_database_conforms Hrun false).
Defined.

(** ** Rate limiter *)

Section RateLimiterFacts.
Import RateLimiter.
Local Open Scope Q_scope.






End RateLimiterFacts.

(** * Further properties of the code *)

(** ** Membership index *)

Lemma add_genes_lookup_exact (category : string) (genes : list string) (g : string) :
  ∀ d : gmap string (list string),
  foldl (add_gene category) d genes !! g =
    let n := length (filter (fun x => x = g) genes) in
    if decide (n = 0) then d !! g
    else Some (default [] (d !! g) ++ replicate n category).
Proof.
  induction genes as [|gene rest IH]; intros d; [done|].
  cbn [foldl]. rewrite IH, add_gene_lookup, filter_cons. cbn zeta.
  destruct (decide (gene = g)) as [->|Hne].
  - rewrite (decide_False (P := length (g :: _) = 0)) by done.
    cbn [length replicate default].
    case_decide as Hn.
    + by rewrite Hn.
    + unfold id. by rewrite <- app_assoc.
  - done.
Qed.

Lemma categories_listing_cons (category : string) (genes : list string)
    (rest : list (string * list string)) (g : string) :
  categories_listing ((category, genes) :: rest) g =
    replicate (length (filter (fun x => x = g) genes)) category
    ++ categories_listing rest g.
Proof. done. Qed.

Lemma build_gene_to_categories_lookup_exact
    (gene_categories : list (string * list string)) (g : string) :
  ∀ d : gmap string (list string),
  foldl (fun d item => foldl (add_gene item.1) d item.2) d gene_categories !! g =
    if decide (categories_listing gene_categories g = []) then d !! g
    else Some (default [] (d !! g) ++ categories_listing gene_categories g).
Proof.
  induction gene_categories as [|[category genes] rest IH]; intros d; [done|].
  cbn [foldl fst snd]. rewrite IH, add_genes_lookup_exact. cbn zeta.
  rewrite !categories_listing_cons.
  destruct (length (filter (fun x => x = g) genes)) as [|n]; [done|].
  rewrite (decide_False (P := S n = 0)) by done.
  rewrite (decide_False (P := replicate (S n) category ++ _ = [])) by done.
  case_decide as Hrest; simpl.
  - by rewrite Hrest, app_nil_r.
  - by rewrite <- app_assoc.
Qed.

(** X1.  The reverse mapping is exact: the entry of a gene is the list of
    the categories that list it, in the order of the CategoryMap and once
    per listing; a gene listed nowhere has no entry, and no entry is ever
    the empty list. *)
Theorem membership_index_exact (gene_categories : list (string * list string))
    (gene : string) :
  gene_to_categories gene_categories !! gene =
    (if decide (categories_listing gene_categories gene = []) then None
     else Some (categories_listing gene_categories gene))
  ∧ (is_Some (gene_to_categories gene_categories !! gene)
     ↔ ∃ category, listed gene_categories category gene).
Proof.
  split.
  - unfold gene_to_categories, build_gene_to_categories.
    rewrite build_gene_to_categories_lookup_exact, lookup_empty. done.
  - destruct (build_gene_to_categories_lookup gene_categories gene) as [Hin Hne].
    fold (gene_to_categories gene_categories) in Hin, Hne. split.
    + intros [[|category cats] Hcats]; [done|].
      exists category. apply Hin. rewrite Hcats. by left.
    + intros [category Hlisted]. apply Hin in Hlisted.
      destruct (gene_to_categories gene_categories !! gene); [done|].
      by apply elem_of_nil in Hlisted.
Qed.

(** ** Identifier resolution *)

Lemma find_gene_name_cons (properties : gmap string prop) (name : string)
    (rest : list string) :
  find_gene_name properties (name :: rest) =
    match properties !! name ≫= identifier_of with
    | Some v => Some v
    | None => find_gene_name properties rest
    end.
Proof.
  cbn [find_gene_name]. destruct (properties !! name) as [p|]; [|done].
  destruct p as [ty title rich sel tags]. unfold identifier_of. simpl.
  destruct (decide (ty = "title")) as [->|Htitle]; [by destruct title|].
  rewrite !(bool_decide_false (ty = "title")) by done. cbn [andb].
  destruct (decide (ty = "rich_text")) as [->|Hrich]; [by destruct rich|].
  rewrite !(bool_decide_false (ty = "rich_text")) by done. cbn [andb].
  destruct (decide (ty = "select")) as [->|Hsel]; [by destruct sel|].
  by rewrite !(bool_decide_false (ty = "select")) by done.
Qed.

(** X2.  First match wins: the identifier found is the one yielded by the
    first candidate field, in the fixed order, that is present and yields
    one; a field that is absent, of another type, or empty is passed over. *)
Theorem first_candidate_wins (properties : gmap string prop) (names : list string)
    (v : string) :
  find_gene_name properties names = Some v ↔
    ∃ i name,
      names !! i = Some name
      ∧ properties !! name ≫= identifier_of = Some v
      ∧ ∀ j earlier, j < i → names !! j = Some earlier →
          properties !! earlier ≫= identifier_of = None.
Proof.
  induction names as [|name rest IH].
  - split; [done|]. by intros (i & name & Hi & _).
  - rewrite find_gene_name_cons.
    destruct (properties !! name ≫= identifier_of) as [w|] eqn:Hw.
    + split.
      * intros [= ->]. exists 0, name. split; [done|]. split; [done|]. intros; lia.
      * intros ([|i] & name' & Hi & Hv & Hearlier).
        -- simpl in Hi. injection Hi as <-. congruence.
        -- specialize (Hearlier 0 name). rewrite Hw in Hearlier.
           discriminate Hearlier; [lia|done].
    + rewrite IH. split.
      * intros (i & name' & Hi & Hv & Hearlier).
        exists (S i), name'. split; [done|]. split; [done|].
        intros [|j] earlier Hj Hlook.
        -- simpl in Hlook. by injection Hlook as <-.
        -- apply (Hearlier j); [lia|done].
      * intros ([|i] & name' & Hi & Hv & Hearlier).
        -- simpl in Hi. injection Hi as <-. congruence.
        -- exists i, name'. split; [done|]. split; [done|].
           intros j earlier Hj Hlook. apply (Hearlier (S j)); [lia|done].
Qed.

Lemma find_gene_name_ext (properties1 properties2 : gmap string prop)
    (names : list string) :
  (∀ name, name ∈ names → properties1 !! name = properties2 !! name) →
  find_gene_name properties1 names = find_gene_name properties2 names.
Proof.
  induction names as [|name rest IH]; intros Hagree; [done|].
  rewrite !find_gene_name_cons, (Hagree name) by (by left).
  rewrite IH; [done|]. intros n Hn. apply Hagree. by right.
Qed.

(** X3.  A record is read through six fields only: the tag column and the
    five candidate identifier fields.  Two records that agree on these get
    the same tags computed and the same decision to update, whatever else
    they hold. *)
Theorem record_is_read_through_six_fields
    (gene_categories : list (string * list string)) (multiselect_column : string)
    (pg1 pg2 : page) :
  page_properties pg1 !! multiselect_column
    = page_properties pg2 !! multiselect_column →
  (∀ name, name ∈ candidate_names →
     page_properties pg1 !! name = page_properties pg2 !! name) →
  compute_new_tags (all_tags gene_categories) (gene_to_categories gene_categories)
                   multiselect_column pg1
    = compute_new_tags (all_tags gene_categories) (gene_to_categories gene_categories)
                       multiselect_column pg2
  ∧ needs_update (all_tags gene_categories) (gene_to_categories gene_categories)
                 multiselect_column pg1
    = needs_update (all_tags gene_categories) (gene_to_categories gene_categories)
                   multiselect_column pg2.
Proof.
  intros Hcol Hnames.
  assert (compute_new_tags (all_tags gene_categories)
            (gene_to_categories gene_categories) multiselect_column pg1
          = compute_new_tags (all_tags gene_categories)
              (gene_to_categories gene_categories) multiselect_column pg2) as Hnew.
  { unfold compute_new_tags, get_existing_tags.
    by rewrite Hcol, (find_gene_name_ext _ _ _ Hnames). }
  split; [exact Hnew|].
  unfold needs_update, get_existing_tags. by rewrite Hnew, Hcol.
Qed.

(** X3, witness: a field named Symbol changes nothing. *)
Lemma record_is_read_through_six_fields_witness :
  page_properties Sample2.record2_annotated !! "Symbol"
    = Some (Sample.title_prop "g1")
  ∧ compute_new_tags (all_tags Sample.categories) (gene_to_categories Sample.categories)
                     "col" Sample2.record2_annotated
    = compute_new_tags (all_tags Sample.categories)
                       (gene_to_categories Sample.categories) "col" Sample.record2.
Proof.
  split; [by vm_compute|].
  refine (proj1 (record_is_read_through_six_fields Sample.categories "col"
                   Sample2.record2_annotated Sample.record2 _ _)).
  - by vm_compute.
  - intros name Hname. unfold candidate_names in Hname.
    repeat (apply elem_of_cons in Hname as [->|Hname]; [by vm_compute|]).
    by apply elem_of_nil in Hname.
Defined.

(** X4.  An empty text in the first candidate field ends the search: the
    record has no identifier, later candidate fields are not consulted, and
    the tags computed for it hold no category. *)
Theorem empty_identifier_hides_later_fields
    (gene_categories : list (string * list string)) (multiselect_column : string)
    (pg : page) (p : prop) (fragments : list string) :
  page_properties pg !! "gene_name" = Some p →
  (prop_type p = "title" ∧ prop_title p = "" :: fragments
   ∨ prop_type p = "rich_text" ∧ prop_rich_text p = "" :: fragments
   ∨ prop_type p = "select" ∧ prop_select p = Some "") →
  find_gene_name (page_properties pg) candidate_names = Some ""
  ∧ resolved_identifier pg = None
  ∧ compute_new_tags (all_tags gene_categories) (gene_to_categories gene_categories)
                     multiselect_column pg
    = get_preserved_tags (all_tags gene_categories)
        (get_existing_tags multiselect_column (page_properties pg)).
Proof.
  intros Hp Hempty.
  assert (find_gene_name (page_properties pg) candidate_names = Some "") as Hfind.
  { unfold candidate_names. rewrite find_gene_name_cons, Hp. simpl.
    unfold identifier_of.
    destruct Hempty as [[-> ->]|[[-> ->]|[-> ->]]]; done. }
  split; [exact Hfind|].
  assert (resolved_identifier pg = None) as Hnone.
  { unfold resolved_identifier. by rewrite Hfind. }
  split; [exact Hnone|].
  unfold compute_new_tags. rewrite get_category_tags_resolved, Hnone. simpl.
  by rewrite app_nil_r.
Qed.

(** X4, witness: the record of g1 whose gene_name field is empty gets no
    category although its Name field reads g1. *)
Lemma empty_identifier_hides_later_fields_witness :
  page_properties Sample2.hidden !! "Name" = Some (Sample.title_prop "g1")
  ∧ resolved_identifier Sample2.hidden = None
  ∧ compute_new_tags (all_tags Sample.categories) (gene_to_categories Sample.categories)
                     "col" Sample2.hidden = [].
Proof.
  split; [by vm_compute|].
  assert (page_properties Sample2.hidden !! "gene_name" = Some (Sample.title_prop ""))
    as Hp by (by vm_compute).
  pose proof (empty_identifier_hides_later_fields Sample.categories "col"
                Sample2.hidden (Sample.title_prop "") [] Hp
                (or_introl (conj eq_refl eq_refl))) as (_ & Hnone & Hnew).
  split; [exact Hnone|]. rewrite Hnew. by vm_compute.
Defined.

(** ** The run, step by step *)

Lemma add_category_tags_eq {S} (svc : Service S) (database_id : string)
    (gene_categories : list (string * list string)) (multiselect_column : string)
    (batch_size : Z) (dry_run : bool) (s : S) :
  add_category_tags svc database_id gene_categories multiselect_column batch_size
                    dry_run s =
    let u := update_schema svc database_id gene_categories multiselect_column
                           dry_run s in
    let query := [Wait; PostQuery database_id (Z.min batch_size 100) None] in
    match u.1.1 with
    | Raise e => (Raise e, u.1.2, u.2)
    | Ok _ =>
        let q := post_query svc database_id (Z.min batch_size 100) None u.1.2 in
        if bool_decide (status_code q.1 ≠ 200%Z) then
          (Raise (Exception ("Failed to query database: " +:+ text q.1)), q.2,
           u.2 ++ query)
        else
          let p := process_pages svc gene_categories multiselect_column dry_run
                     (results (json q.1))
                     (init_stats (length (results (json q.1)))) q.2 in
          (p.1.1, p.1.2, u.2 ++ query ++ p.2)
    end.
Proof.
  unfold add_category_tags, bind.
  destruct (update_schema _ _ _ _ _ s) as [[[[]|e] s1] tr1]; [|done].
  rewrite fetch_all_pages_eq. cbn zeta. cbn [fst snd].
  case_bool_decide; [done|].
  by destruct (process_pages _ _ _ _ _ _ _) as [[r s2] tr2].
Qed.

Lemma count_identifier_fields (gene_categories : list (string * list string))
    (pg : page) (st : Stats) :
  let st' := count_identifier gene_categories pg st in
  genes_found st' =
    genes_found st + (if decide (has_identifier pg) then 1 else 0)
  ∧ genes_with_categories st' =
      genes_with_categories st
      + (if decide (has_categories gene_categories pg) then 1 else 0)
  ∧ tags_added st' = tags_added st ∧ tags_removed st' = tags_removed st.
Proof.
  unfold count_identifier, has_identifier, has_categories, resolved_identifier.
  destruct (truthy _) eqn:Htruthy.
  - destruct (find_gene_name _ _) as [g|]; [|done]. simpl.
    destruct (gene_to_categories gene_categories !! g).
    + rewrite decide_True by done. simpl. repeat split; lia.
    + rewrite decide_False by (by intros [? ?]). simpl. repeat split; lia.
  - simpl. repeat split; lia.
Qed.

Lemma needs_update_false_sets (gene_categories : list (string * list string))
    (multiselect_column : string) (pg : page) :
  needs_update (all_tags gene_categories) (gene_to_categories gene_categories)
               multiselect_column pg = false ↔
  existing_set multiselect_column pg = new_set gene_categories multiselect_column pg.
Proof.
  unfold needs_update, existing_set, new_set.
  rewrite bool_decide_eq_false. split; [apply dec_stable|by intros ? ?].
Qed.

Lemma count_diff_fields (gene_categories : list (string * list string))
    (multiselect_column : string) (pg : page) (st : Stats) :
  let st' := count_diff gene_categories multiselect_column pg st in
  genes_found st' = genes_found (count_identifier gene_categories pg st)
  ∧ genes_with_categories st'
    = genes_with_categories (count_identifier gene_categories pg st)
  ∧ tags_added st' =
      tags_added st
      + size (new_set gene_categories multiselect_column pg
              ∖ existing_set multiselect_column pg)
  ∧ tags_removed st' =
      tags_removed st
      + size (existing_set multiselect_column pg
              ∖ new_set gene_categories multiselect_column pg).
Proof.
  destruct (count_identifier_fields gene_categories pg st) as (_ & _ & Ha & Hr).
  unfold count_diff. cbn zeta. cbn [genes_found genes_with_categories tags_added
    tags_removed add_tag_counts].
  by rewrite Ha, Hr.
Qed.

Lemma unchanged_record_adds_no_tag (gene_categories : list (string * list string))
    (multiselect_column : string) (pg : page) :
  needs_update (all_tags gene_categories) (gene_to_categories gene_categories)
               multiselect_column pg = false →
  size (new_set gene_categories multiselect_column pg
        ∖ existing_set multiselect_column pg) = 0
  ∧ size (existing_set multiselect_column pg
          ∖ new_set gene_categories multiselect_column pg) = 0.
Proof.
  intros Heq%needs_update_false_sets. rewrite Heq.
  rewrite difference_diag_L. by rewrite size_empty.
Qed.

(** What the page loop does to the statistics and which calls it makes. *)
Lemma process_pages_spec {S} (svc : Service S)
    (gene_categories : list (string * list string)) (multiselect_column : string)
    (dry_run : bool) (pages : list page) :
  ∀ (stats : Stats) (s : S),
  ∃ stats' s' tr,
    process_pages svc gene_categories multiselect_column dry_run pages stats s
      = (Ok stats', s', tr)
    ∧ genes_found stats' = genes_found stats + length (filter has_identifier pages)
    ∧ genes_with_categories stats' =
        genes_with_categories stats
        + length (filter (has_categories gene_categories) pages)
    ∧ tags_added stats' =
        tags_added stats
        + sum_list ((fun pg => size (new_set gene_categories multiselect_column pg
                                     ∖ existing_set multiselect_column pg)) <$> pages)
    ∧ tags_removed stats' =
        tags_removed stats
        + sum_list ((fun pg => size (existing_set multiselect_column pg
                                     ∖ new_set gene_categories multiselect_column pg))
                    <$> pages)
    ∧ pages_skipped stats' + length (stale gene_categories multiselect_column pages)
        = pages_skipped stats + length pages
    ∧ pages_updated stats' + length (errors stats') =
        pages_updated stats + length (errors stats)
        + length (stale gene_categories multiselect_column pages)
    ∧ tr = (if dry_run then []
            else pg ← stale gene_categories multiselect_column pages;
                 [Wait; patch_event gene_categories multiselect_column pg]).
Proof.
  induction pages as [|pg rest IH]; intros stats s.
  - exists stats, s, []. simpl. split; [done|]. repeat split; try lia.
    by destruct dry_run.
  - cbn [process_pages]. unfold bind. rewrite process_page_eq. cbn zeta.
    pose proof (count_identifier_fields gene_categories pg stats)
      as (Hf1 & Hc1 & Ha1 & Hr1).
    pose proof (count_diff_fields gene_categories multiselect_column pg stats)
      as (Hf2 & Hc2 & Ha2 & Hr2).
    pose proof (count_identifier_frame gene_categories pg stats)
      as (_ & Hu1 & Hs1 & He1).
    pose proof (count_diff_frame gene_categories multiselect_column pg stats)
      as (_ & Hu2 & Hs2 & He2).
    apply (f_equal length) in He1, He2.
    unfold stale. rewrite !filter_cons, !fmap_cons. cbn [sum_list sum_list_with].
    fold (stale gene_categories multiselect_column rest).
    destruct (needs_update _ _ _ pg) eqn:Hneed.
    + rewrite (decide_True (P := true = true)) by done.
      set (st3 := count_diff gene_categories multiselect_column pg stats) in *.
      set (r := patch_page svc (page_id pg) multiselect_column _ s).
      assert (∃ st4 s4 tr4,
        (if dry_run then (Ok (incr_pages_updated st3), s, [])
         else (Ok (if bool_decide (status_code r.1 = 200%Z)
                   then incr_pages_updated st3
                   else append_error ("Failed to update page " +:+ page_id pg
                                      +:+ ": " +:+ text r.1) st3),
               r.2,
               [Wait; PatchPage (page_id pg) multiselect_column
                  (compute_new_tags (all_tags gene_categories)
                     (gene_to_categories gene_categories) multiselect_column pg)]))
        = (Ok st4, s4, tr4)
        ∧ genes_found st4 = genes_found st3
        ∧ genes_with_categories st4 = genes_with_categories st3
        ∧ tags_added st4 = tags_added st3 ∧ tags_removed st4 = tags_removed st3
        ∧ pages_skipped st4 = pages_skipped st3
        ∧ pages_updated st4 + length (errors st4)
          = 1 + (pages_updated st3 + length (errors st3))
        ∧ tr4 = if dry_run then []
                else [Wait; patch_event gene_categories multiselect_column pg])
        as (st4 & s4 & tr4 & -> & Hf4 & Hc4 & Ha4 & Hr4 & Hs4 & Hu4 & ->).
      { destruct dry_run.
        - eexists _, _, _. split; [done|]. simpl. repeat split; lia.
        - eexists _, _, _. split; [done|]. case_bool_decide; simpl.
          + repeat split; lia.
          + rewrite length_app. simpl. repeat split; lia. }
      destruct (IH st4 s4) as (st' & s' & tr & -> & Hf & Hc & Ha & Hr & Hs & Hu & ->).
      exists st', s'. eexists. split; [done|].
      repeat case_decide; cbn [length] in *; unfold id in *; repeat split; try lia.
      all: by destruct dry_run.
    + rewrite (decide_False (P := false = true)) by done.
      destruct (unchanged_record_adds_no_tag _ _ _ Hneed) as [Hadd0 Hrem0].
      destruct (IH (incr_pages_skipped (count_identifier gene_categories pg stats)) s)
        as (st' & s' & tr & -> & Hf & Hc & Ha & Hr & Hs & Hu & ->).
      exists st', s'. eexists. split; [done|].
      cbn [genes_found genes_with_categories tags_added tags_removed
           pages_skipped pages_updated errors incr_pages_skipped] in *.
      repeat case_decide; cbn [length] in *; unfold id in *; repeat split; try lia.
      all: by destruct dry_run.
Qed.

Lemma requests_rate_limited (reqs : list Event) :
  Forall (fun e => is_wait e = false) reqs →
  requests (reqs ≫= rate_limited) = reqs.
Proof.
  induction 1 as [|e reqs He _ IH]; [done|].
  rewrite bind_cons. unfold requests in *. rewrite filter_app, IH.
  unfold rate_limited. rewrite filter_cons, decide_False by done.
  by rewrite filter_cons, decide_True, filter_nil by done.
Qed.

Lemma patches_rate_limited (gene_categories : list (string * list string))
    (multiselect_column : string) (pages : list page) :
  (pg ← pages; [Wait; patch_event gene_categories multiselect_column pg])
    = (patch_event gene_categories multiselect_column <$> pages) ≫= rate_limited.
Proof.
  induction pages as [|pg rest IH]; [done|].
  by rewrite fmap_cons, !bind_cons, IH.
Qed.

(** The calls of a run: the schema read, at most one schema patch, then at
    most one query followed by property patches only; each behind its own
    limiter call. *)
Lemma run_requests {S} (svc : Service S) (database_id : string)
    (gene_categories : list (string * list string)) (multiselect_column : string)
    (batch_size : Z) (dry_run : bool) (s : S) :
  ∃ schema_part fetch_part,
    (add_category_tags svc database_id gene_categories multiselect_column
                       batch_size dry_run s).2
      = ([GetDatabase database_id] ++ schema_part ++ fetch_part) ≫= rate_limited
    ∧ (schema_part = []
       ∨ ∃ options,
           schema_part = [PatchDatabase database_id multiselect_column options])
    ∧ (fetch_part = []
       ∨ ∃ patches,
           fetch_part = PostQuery database_id (Z.min batch_size 100) None :: patches
           ∧ Forall (fun e => is_property_patch e = true) patches).
Proof.
  rewrite add_category_tags_eq. cbn zeta.
  pose proof (update_schema_trace svc database_id gene_categories
                multiselect_column dry_run s) as Hu. cbn zeta in Hu.
  destruct (update_schema _ _ _ _ _ s) as [[r s1] tr1]. cbn [fst snd] in *.
  assert (∃ schema_part,
    tr1 = ([GetDatabase database_id] ++ schema_part) ≫= rate_limited
    ∧ (schema_part = []
       ∨ ∃ options,
           schema_part = [PatchDatabase database_id multiselect_column options]))
    as (schema_part & -> & Hschema).
  { destruct Hu as [->|[options ->]].
    - exists []. split; [done|]. by left.
    - exists [PatchDatabase database_id multiselect_column options].
      split; [done|]. right. by exists options. }
  exists schema_part.
  destruct r as [[]|e].
  2: { exists []. rewrite app_nil_r. split; [done|]. split; [done|]. by left. }
  case_bool_decide.
  { exists [PostQuery database_id (Z.min batch_size 100) None]. cbn [snd].
    split; [by rewrite (app_assoc [GetDatabase database_id]), !bind_app|].
    split; [done|]. right. by exists []. }
  match goal with |- context [process_pages _ _ _ _ ?ps ?st ?x] =>
    destruct (process_pages_spec svc gene_categories multiselect_column dry_run
                ps st x) as (st' & s' & tr & -> & _ & _ & _ & _ & _ & _ & ->);
    set (pages := ps) end.
  cbn [snd].
  exists (PostQuery database_id (Z.min batch_size 100) None
          :: (if dry_run then []
              else patch_event gene_categories multiselect_column
                     <$> stale gene_categories multiselect_column pages)).
  split; [|split; [done|]].
  - rewrite (app_assoc [GetDatabase database_id]), !bind_app. f_equal.
    rewrite bind_cons. f_equal.
    destruct dry_run; [done|]. apply patches_rate_limited.
  - right. eexists. split; [done|].
    destruct dry_run; [done|]. by apply Forall_fmap, Forall_true.
Qed.

(** X5.  Every remote request of a run, whatever its outcome, comes
    directly after a call of the rate limiter made for it: the trace is the
    list of its requests, each preceded by one limiter call, so the limiter
    is called exactly once per request. *)
Theorem every_request_is_rate_limited {S} (svc : Service S) (database_id : string)
    (gene_categories : list (string * list string)) (multiselect_column : string)
    (batch_size : Z) (dry_run : bool) (s : S) :
  let tr := (add_category_tags svc database_id gene_categories multiselect_column
                               batch_size dry_run s).2 in
  tr = requests tr ≫= rate_limited
  ∧ length (filter (fun e => is_wait e = true) tr) = length (requests tr).
Proof.
  intros tr. subst tr.
  destruct (run_requests svc database_id gene_categories multiselect_column
              batch_size dry_run s)
    as (schema_part & fetch_part & -> & Hschema & Hfetch).
  set (reqs := [GetDatabase database_id] ++ schema_part ++ fetch_part).
  assert (Forall (fun e => is_wait e = false) reqs) as Hreqs.
  { unfold reqs. apply Forall_app. split; [by repeat constructor|].
    apply Forall_app. split.
    - destruct Hschema as [->|[options ->]]; by repeat constructor.
    - destruct Hfetch as [->|(patches & -> & Hpatches)]; [done|].
      constructor; [done|].
      eapply Forall_impl; [exact Hpatches|]. by intros []. }
  rewrite requests_rate_limited by done. split; [done|].
  clear -Hreqs. induction Hreqs as [|e reqs He _ IH]; [done|].
  rewrite bind_cons, filter_app, length_app, IH.
  unfold rate_limited. rewrite filter_cons, decide_True by done.
  by rewrite filter_cons, decide_False, filter_nil by (by rewrite He).
Qed.

(** X6.  Order of the requests of a run, whatever its outcome: one schema
    read; then at most one schema patch; then at most one query, asking for
    [min(batch_size, 100)] records with no cursor; and after the query
    property patches only.  No record is read after a write to a record,
    and the page size never exceeds 100. *)
Theorem requests_are_ordered {S} (svc : Service S) (database_id : string)
    (gene_categories : list (string * list string)) (multiselect_column : string)
    (batch_size : Z) (dry_run : bool) (s : S) :
  let tr := (add_category_tags svc database_id gene_categories multiselect_column
                               batch_size dry_run s).2 in
  ∃ schema_part fetch_part,
    requests tr = [GetDatabase database_id] ++ schema_part ++ fetch_part
    ∧ (schema_part = []
       ∨ ∃ options,
           schema_part = [PatchDatabase database_id multiselect_column options])
    ∧ (fetch_part = []
       ∨ ∃ page_size patches,
           fetch_part = PostQuery database_id page_size None :: patches
           ∧ page_size = Z.min batch_size 100
           ∧ (page_size ≤ 100)%Z
           ∧ Forall (fun e => is_property_patch e = true) patches).
Proof.
  intros tr. subst tr.
  destruct (run_requests svc database_id gene_categories multiselect_column
              batch_size dry_run s)
    as (schema_part & fetch_part & -> & Hschema & Hfetch).
  exists schema_part, fetch_part. split; [|split; [done|]].
  - apply requests_rate_limited.
    apply Forall_app. split; [by repeat constructor|].
    apply Forall_app. split.
    + destruct Hschema as [->|[options ->]]; by repeat constructor.
    + destruct Hfetch as [->|(patches & -> & Hpatches)]; [done|].
      constructor; [done|].
      eapply Forall_impl; [exact Hpatches|]. by intros [].
  - destruct Hfetch as [->|(patches & -> & Hpatches)]; [by left|right].
    exists (Z.min batch_size 100), patches. repeat split; [lia|done].
Qed.

(** A returning run, in terms of the records it fetched. *)
Lemma run_returned {S} (svc : Service S) (database_id : string)
    (gene_categories : list (string * list string)) (multiselect_column : string)
    (batch_size : Z) (dry_run : bool) (s : S) (stats : Stats) (s' : S)
    (tr : list Event) :
  add_category_tags svc database_id gene_categories multiselect_column batch_size
                    dry_run s = (Ok stats, s', tr) →
  let F := fetched svc database_id gene_categories multiselect_column batch_size
                   dry_run s in
  total_pages stats = length F
  ∧ genes_found stats = length (filter has_identifier F)
  ∧ genes_with_categories stats = length (filter (has_categories gene_categories) F)
  ∧ tags_added stats =
      sum_list ((fun pg => size (new_set gene_categories multiselect_column pg
                                 ∖ existing_set multiselect_column pg)) <$> F)
  ∧ tags_removed stats =
      sum_list ((fun pg => size (existing_set multiselect_column pg
                                 ∖ new_set gene_categories multiselect_column pg))
                <$> F)
  ∧ pages_skipped stats + length (stale gene_categories multiselect_column F)
      = length F
  ∧ pages_updated stats + length (errors stats)
      = length (stale gene_categories multiselect_column F)
  ∧ tr = (update_schema svc database_id gene_categories multiselect_column
                        dry_run s).2
         ++ [Wait; PostQuery database_id (Z.min batch_size 100) None]
         ++ (if dry_run then []
             else pg ← stale gene_categories multiselect_column F;
                  [Wait; patch_event gene_categories multiselect_column pg]).
Proof.
  rewrite add_category_tags_eq. cbn zeta. unfold fetched.
  destruct (update_schema _ _ _ _ _ s) as [[[[]|e] s1] tr1]; cbn [fst snd]; [|done].
  case_bool_decide; [done|].
  set (F := results (json _)).
  destruct (process_pages_spec svc gene_categories multiselect_column dry_run F
              (init_stats (length F))
              (post_query svc database_id (Z.min batch_size 100) None s1).2)
    as (st' & s2 & tr2 & Heq & Hf & Hc & Ha & Hr & Hs & Hu & ->).
  destruct (process_pages_returns svc gene_categories multiselect_column dry_run F
              (init_stats (length F))
              (post_query svc database_id (Z.min batch_size 100) None s1).2)
    as (st'' & s2' & tr2' & Heq' & Ht & _).
  rewrite Heq in Heq'. injection Heq' as <- <- <-.
  rewrite Heq. cbn [fst snd]. intros [= <- <- <-].
  simpl in Hf, Hc, Ha, Hr, Hs, Hu, Ht.
  repeat split; done.
Qed.

(** ** Schema edge cases *)

(** X7.  A tag column of another type is fatal: when the schema read
    succeeds and the column exists with a type other than multi-select, the
    run raises [ValueError] naming the column right after the read, in
    simulation mode or not; nothing is patched and nothing is queried. *)
Theorem wrong_column_type_raises {S} (svc : Service S) (database_id : string)
    (gene_categories : list (string * list string)) (multiselect_column : string)
    (batch_size : Z) (dry_run : bool) (s : S) (prop_config : prop_config) :
  let g := get_database svc database_id s in
  status_code g.1 = 200%Z →
  json g.1 !! multiselect_column = Some prop_config →
  cfg_type prop_config ≠ "multi_select" →
  add_category_tags svc database_id gene_categories multiselect_column batch_size
                    dry_run s
    = (Raise (ValueError ("Column '" +:+ multiselect_column
                          +:+ "' is not a multi-select type")),
       g.2, [Wait; GetDatabase database_id]).
Proof.
  intros g Hstatus Hcol Htype.
  rewrite add_category_tags_eq, update_schema_eq. cbn zeta. fold g.
  rewrite bool_decide_false by (by intros ?).
  unfold read_existing_options. rewrite Hcol.
  by rewrite bool_decide_false.
Qed.

(** X7, witness: the tag column is a single-select field. *)
Lemma wrong_column_type_raises_witness :
  let s := Notion.State Sample2.select_schema [Sample.record2] in
  Sample2.select_schema !! "col" = Some (PropConfig "select" [])
  ∧ add_category_tags Notion.service "db" Sample.categories "col" 10 false s
    = (Raise (ValueError "Column 'col' is not a multi-select type"), s,
       [Wait; GetDatabase "db"]).
Proof.
  intros s.
  assert (Sample2.select_schema !! "col" = Some (PropConfig "select" [])) as Hcol
    by (by vm_compute).
  split; [exact Hcol|].
  refine (wrong_column_type_raises Notion.service "db" Sample.categories "col" 10
            false s (PropConfig "select" []) eq_refl Hcol _).
  by vm_compute.
Defined.

Lemma extend_options_fresh (tags : list string) :
  ∀ (i : nat) (opts : list select_option) (added : list string),
  extend_options ∅ i tags (opts, added)
    = (opts ++ imap (fun j => palette_option (i + j)) tags, added ++ tags).
Proof.
  induction tags as [|tag rest IH]; intros i opts added.
  - simpl. by rewrite !app_nil_r.
  - cbn [extend_options fst snd]. fold (palette_option i tag).
    rewrite bool_decide_false by set_solver.
    rewrite IH, <- !app_assoc. cbn [app imap]. rewrite Nat.add_0_r.
    do 3 f_equal. apply imap_ext. intros j x _. simpl. f_equal. lia.
Qed.

(** X8.  A tag column missing from the schema is created: when the schema
    read succeeds, the column is absent and there is at least one category,
    a real run patches the schema right after the read with one option per
    category, in CategoryMap order, the i-th coloured [colors[i mod 9]]. *)
Theorem absent_column_is_created {S} (svc : Service S) (database_id : string)
    (gene_categories : list (string * list string)) (multiselect_column : string)
    (batch_size : Z) (s : S) :
  let g := get_database svc database_id s in
  status_code g.1 = 200%Z →
  json g.1 !! multiselect_column = None →
  gene_categories ≠ [] →
  ∃ rest,
    (add_category_tags svc database_id gene_categories multiselect_column
                       batch_size false s).2
      = [Wait; GetDatabase database_id; Wait;
         PatchDatabase database_id multiselect_column
           (imap palette_option (all_tags gene_categories))] ++ rest.
Proof.
  intros g Hstatus Hcol Hcats.
  assert ((update_schema svc database_id gene_categories multiselect_column
                         false s).2
          = [Wait; GetDatabase database_id; Wait;
             PatchDatabase database_id multiselect_column
               (imap palette_option (all_tags gene_categories))]) as Htr.
  { rewrite update_schema_eq. cbn zeta. fold g.
    rewrite bool_decide_false by (by intros ?).
    unfold read_existing_options. rewrite Hcol.
    unfold schema_update. cbn [fmap list_fmap list_to_set foldr].
    rewrite (extend_options_fresh _ 0 [] []). cbn [app fst snd].
    rewrite bool_decide_true.
    2: { unfold all_tags. by destruct gene_categories. }
    done. }
  rewrite add_category_tags_eq. cbn zeta.
  destruct (update_schema _ _ _ _ _ s) as [[r s1] tr1]. cbn [fst snd] in *. subst tr1.
  destruct r as [[]|e]; [|by exists []].
  case_bool_decide; cbn [snd]; by eexists.
Qed.

(** X8, witness: the sample categories on a database with an empty schema. *)
Lemma absent_column_is_created_witness :
  let s := Notion.State ∅ [Sample.record2] in
  ∃ rest,
    (add_category_tags Notion.service "db" Sample.categories "col" 10 false s).2
      = [Wait; GetDatabase "db"; Wait;
         PatchDatabase "db" "col"
           [SelectOption "A" "red" None; SelectOption "B" "blue" None]] ++ rest.
Proof.
  intros s.
  exact (absent_column_is_created Notion.service "db" Sample.categories "col" 10 s
           eq_refl eq_refl (fun H => eq_ind (A := list (string * list string))
              Sample.categories
              (fun l => match l with [] => False | _ => True end) I [] H)).
Defined.

(** ** Records and writes *)

Lemma elem_of_compute_new_tags (gene_categories : list (string * list string))
    (multiselect_column : string) (pg : page) (tag : string) :
  tag ∈ compute_new_tags (all_tags gene_categories)
          (gene_to_categories gene_categories) multiselect_column pg ↔
    (tag ∈ get_existing_tags multiselect_column (page_properties pg)
     ∧ tag ∉ all_tags gene_categories)
    ∨ (∃ gene, resolved_identifier pg = Some gene
               ∧ listed gene_categories tag gene).
Proof.
  unfold compute_new_tags, get_preserved_tags.
  rewrite get_category_tags_resolved, elem_of_app, list_elem_of_filter.
  destruct (resolved_identifier pg) as [g|]; simpl.
  - rewrite (proj1 (build_gene_to_categories_lookup gene_categories g)).
    naive_solver.
  - rewrite elem_of_nil. naive_solver.
Qed.

(** X9.  When a record is left alone: no update is needed exactly when,
    among the category names, the record's current tags are the categories
    that list its identifier - whatever its other tags, their order and
    their repetitions. *)
Theorem record_unchanged_iff_categories_agree
    (gene_categories : list (string * list string)) (multiselect_column : string)
    (pg : page) :
  needs_update (all_tags gene_categories) (gene_to_categories gene_categories)
               multiselect_column pg = false ↔
  ∀ category, category ∈ all_tags gene_categories →
    (category ∈ get_existing_tags multiselect_column (page_properties pg)
     ↔ ∃ gene, resolved_identifier pg = Some gene
               ∧ listed gene_categories category gene).
Proof.
  rewrite needs_update_false_sets. unfold existing_set, new_set.
  rewrite set_eq. setoid_rewrite elem_of_list_to_set.
  setoid_rewrite elem_of_compute_new_tags. split.
  - intros Heq category Hcat. rewrite (Heq category). naive_solver.
  - intros Hagree tag.
    destruct (decide (tag ∈ all_tags gene_categories)) as [Hcat|Hcat].
    + rewrite (Hagree tag Hcat). naive_solver.
    + split; [by left|]. intros [[? _]|(gene & _ & Hlisted)]; [done|].
      by apply listed_all_tags in Hlisted.
Qed.

(** X10.  Exactly the stale records are written: a real run that returns
    sent one property patch per fetched record whose tags needed an update,
    in fetch order, each to the record's own identifier and carrying the
    tags computed for it; a refused patch does not stop the later ones, and
    no other record is written. *)
Theorem stale_records_are_patched {S} (svc : Service S) (database_id : string)
    (gene_categories : list (string * list string)) (multiselect_column : string)
    (batch_size : Z) (s : S) (stats : Stats) (s' : S) (tr : list Event) :
  add_category_tags svc database_id gene_categories multiselect_column batch_size
                    false s = (Ok stats, s', tr) →
  filter (fun e => is_property_patch e = true) tr =
    patch_event gene_categories multiselect_column
      <$> stale gene_categories multiselect_column
            (fetched svc database_id gene_categories multiselect_column
                     batch_size false s).
Proof.
  intros Hrun.
  apply run_returned in Hrun as (_ & _ & _ & _ & _ & _ & _ & ->).
  pose proof (update_schema_trace svc database_id gene_categories
                multiselect_column false s) as Hu. cbn zeta in Hu.
  rewrite !filter_app.
  assert (filter (fun e => is_property_patch e = true)
            (update_schema svc database_id gene_categories multiselect_column
                           false s).2 = []) as ->
    by (destruct Hu as [->|[options ->]]; done).
  cbn [app]. rewrite !filter_cons, !decide_False, filter_nil by done. cbn [app].
  induction (stale _ _ _) as [|pg rest IH]; [done|].
  rewrite bind_cons, filter_app, IH, fmap_cons.
  by rewrite !filter_cons, decide_False, decide_True, filter_nil by done.
Qed.

(** X10, witness: the run on three records of which the last is refused. *)
Lemma stale_records_are_patched_witness :
  let s0 := (Faulty.Plan false false false ["p2"], Sample.database3) in
  let run := add_category_tags Faulty.service "db" Sample.categories "col" 10 false
                               s0 in
  run.1.1 = Ok (MkStats 3 1 1 2 2 1 2
                  ["Failed to update page p2: internal_server_error"])
  ∧ filter (fun e => is_property_patch e = true) run.2
    = [PatchPage "p2" "col" ["B"]; PatchPage "p3" "col" []].
Proof.
  intros s0 run.
  assert (run = (Ok (MkStats 3 1 1 2 2 1 2
                       ["Failed to update page p2: internal_server_error"]),
                 run.1.2, run.2)) as Hrun by (vm_compute; reflexivity).
  split; [by rewrite Hrun|].
  rewrite (stale_records_are_patched Faulty.service "db" Sample.categories "col" 10
             s0 _ _ _ Hrun).
  by vm_compute.
Defined.

Lemma filter_all_satisfy {A} (P : A → Prop) `{!∀ x, Decision (P x)} (l : list A) :
  Forall P l → filter P l = l.
Proof.
  induction 1 as [|x l Hx _ IH]; [done|].
  by rewrite filter_cons, decide_True, IH.
Qed.

Lemma no_category_no_update (multiselect_column : string) (pg : page) :
  needs_update (all_tags []) (gene_to_categories []) multiselect_column pg = false.
Proof.
  apply needs_update_false_sets. unfold existing_set, new_set. f_equal.
  unfold compute_new_tags. rewrite get_category_tags_resolved.
  assert (resolved_identifier pg ≫= (gene_to_categories [] !!.) = None) as ->
    by (by destruct (resolved_identifier pg)).
  simpl. rewrite app_nil_r. unfold get_preserved_tags.
  symmetry. apply filter_all_satisfy, Forall_forall.
  intros tag _ Hin. by apply elem_of_nil in Hin.
Qed.

Lemma sum_list_zero {A} (f : A → nat) (l : list A) :
  Forall (fun x => f x = 0) l → sum_list (f <$> l) = 0.
Proof.
  induction 1 as [|x l Hx _ IH]; [done|].
  rewrite fmap_cons. change (sum_list (f x :: (f <$> l))) with (f x + sum_list (f <$> l)).
  lia.
Qed.

(** X11.  A run without categories changes nothing: with an empty
    CategoryMap no schema patch and no property patch is sent, in any mode
    and whatever the service answers, and a run that returns reports every
    fetched record as unchanged, with no tag added or removed. *)
Theorem empty_category_map_changes_nothing {S} (svc : Service S)
    (database_id multiselect_column : string) (batch_size : Z) (dry_run : bool)
    (s : S) :
  let run := add_category_tags svc database_id [] multiselect_column batch_size
                               dry_run s in
  filter (fun e => is_write e = true) run.2 = []
  ∧ ∀ stats, run.1.1 = Ok stats →
      pages_skipped stats = total_pages stats
      ∧ pages_updated stats = 0 ∧ errors stats = []
      ∧ tags_added stats = 0 ∧ tags_removed stats = 0
      ∧ genes_with_categories stats = 0.
Proof.
  intros run. subst run.
  assert (∀ pages, stale [] multiselect_column pages = []) as Hstale.
  { intros pages. unfold stale. apply filter_none_satisfy, Forall_forall.
    intros pg _. by rewrite no_category_no_update. }
  rewrite add_category_tags_eq, update_schema_eq. cbn zeta.
  case_bool_decide; [done|].
  destruct (read_existing_options _ _) as [existing|e]; [|done].
  cbn [all_tags fmap list_fmap schema_update extend_options fst snd].
  rewrite (bool_decide_false ([] ≠ [])) by (by intros ?). cbn [andb fst snd].
  case_bool_decide; [done|].
  set (F := results (json _)). set (s2 := (post_query _ _ _ _ _).2).
  destruct (process_pages_spec svc [] multiselect_column dry_run F
              (init_stats (length F)) s2)
    as (st' & s3 & tr & Heq & _ & Hc & Ha & Hr & Hs & Hu & ->).
  destruct (process_pages_returns svc [] multiselect_column dry_run F
              (init_stats (length F)) s2) as (st'' & s3' & tr' & Heq' & Ht & _).
  rewrite Heq in Heq'. injection Heq' as <- <- <-.
  rewrite Heq, Hstale in *. cbn [fst snd]. split; [by destruct dry_run|].
  intros stats [= <-]. simpl in Hc, Ha, Hr, Hs, Hu, Ht.
  rewrite sum_list_zero in Ha, Hr.
  2,3: apply Forall_forall; intros pg _;
       by apply unchanged_record_adds_no_tag, no_category_no_update.
  assert (filter (has_categories []) F = []) as Hnone.
  { apply filter_none_satisfy, Forall_forall. intros pg _. unfold has_categories.
    destruct (resolved_identifier pg); by intros [? ?]. }
  rewrite Hnone in Hc. simpl in Hc.
  repeat split; try lia.
  destruct (errors st'); [done|simpl in Hu; lia].
Qed.

(** ** Statistics *)

Lemma length_filter_mono {A} (P Q : A → Prop) `{!∀ x, Decision (P x)}
    `{!∀ x, Decision (Q x)} (l : list A) :
  (∀ x, P x → Q x) → length (filter P l) ≤ length (filter Q l).
Proof.
  intros Himpl. induction l as [|x l IH]; [done|].
  rewrite !filter_cons. destruct (decide (P x)) as [HP|HP].
  - rewrite decide_True by auto. simpl. lia.
  - destruct (decide (Q x)); simpl; lia.
Qed.

(** X12.  The record counters of a run that returns, read off the fetched
    records: [genes_found] counts those with a non-empty identifier,
    [genes_with_categories] those whose identifier some category lists,
    [pages_skipped] those whose tags needed no update, and [pages_updated]
    with the errors share out the others; so
    [genes_with_categories <= genes_found <= total_pages]. *)
Theorem counters_match_fetched_records {S} (svc : Service S) (database_id : string)
    (gene_categories : list (string * list string)) (multiselect_column : string)
    (batch_size : Z) (dry_run : bool) (s : S) (stats : Stats) (s' : S)
    (tr : list Event) :
  add_category_tags svc database_id gene_categories multiselect_column batch_size
                    dry_run s = (Ok stats, s', tr) →
  let F := fetched svc database_id gene_categories multiselect_column batch_size
                   dry_run s in
  genes_found stats = length (filter has_identifier F)
  ∧ genes_with_categories stats = length (filter (has_categories gene_categories) F)
  ∧ pages_skipped stats
    = length F - length (stale gene_categories multiselect_column F)
  ∧ pages_updated stats + length (errors stats)
    = length (stale gene_categories multiselect_column F)
  ∧ genes_with_categories stats ≤ genes_found stats ≤ total_pages stats.
Proof.
  intros Hrun F.
  apply run_returned in Hrun as (Ht & Hf & Hc & _ & _ & Hs & Hu & _).
  fold F in Ht, Hf, Hc, Hs, Hu.
  split; [done|]. split; [done|]. split; [lia|]. split; [done|].
  rewrite Hf, Hc, Ht. split.
  - apply length_filter_mono. unfold has_categories, has_identifier.
    intros pg. destruct (resolved_identifier pg); [done|]. by intros [? ?].
  - apply length_filter.
Qed.

(** X12, witness: of three records two have an identifier, both listed. *)
Lemma counters_match_fetched_records_witness :
  let s0 := (Faulty.Plan false false false ["p3"], Sample.database3) in
  let run := add_category_tags Faulty.service "db" Sample.categories "col" 10 false
                               s0 in
  let st := MkStats 3 1 1 2 2 1 2 ["Failed to update page p3: internal_server_error"] in
  run = (Ok st, run.1.2, run.2)
  ∧ genes_with_categories st ≤ genes_found st ≤ total_pages st.
Proof.
  intros s0 run st.
  assert (run = (Ok st, run.1.2, run.2)) as Hrun by (vm_compute; reflexivity).
  split; [exact Hrun|].
  exact (proj2 (proj2 (proj2 (proj2
    (counters_match_fetched_records Faulty.service "db" Sample.categories "col" 10
       false s0 st run.1.2 run.2 Hrun))))).
Defined.

(** X13.  The tag counters of a run that returns: [tags_added] is the
    number of tags the computed sets have beyond the current ones, summed
    over the fetched records, and [tags_removed] the number they lack -
    counted in simulation mode and for refused patches alike.  Every tag
    counted as added is a category listing the record's identifier; every
    tag counted as removed is a category name. *)
Theorem tag_counters_sum_the_differences {S} (svc : Service S)
    (database_id : string) (gene_categories : list (string * list string))
    (multiselect_column : string) (batch_size : Z) (dry_run : bool) (s : S)
    (stats : Stats) (s' : S) (tr : list Event) :
  add_category_tags svc database_id gene_categories multiselect_column batch_size
                    dry_run s = (Ok stats, s', tr) →
  let F := fetched svc database_id gene_categories multiselect_column batch_size
                   dry_run s in
  let added pg := new_set gene_categories multiselect_column pg
                  ∖ existing_set multiselect_column pg in
  let removed pg := existing_set multiselect_column pg
                    ∖ new_set gene_categories multiselect_column pg in
  tags_added stats = sum_list ((fun pg => size (added pg)) <$> F)
  ∧ tags_removed stats = sum_list ((fun pg => size (removed pg)) <$> F)
  ∧ (∀ pg tag, tag ∈ added pg →
       ∃ gene, resolved_identifier pg = Some gene
               ∧ listed gene_categories tag gene)
  ∧ (∀ pg tag, tag ∈ removed pg → tag ∈ all_tags gene_categories).
Proof.
  intros Hrun F added removed.
  apply run_returned in Hrun as (_ & _ & _ & Ha & Hr & _).
  split; [exact Ha|]. split; [exact Hr|].
  unfold added, removed, new_set, existing_set. split.
  - intros pg tag. rewrite elem_of_difference, !elem_of_list_to_set.
    rewrite elem_of_compute_new_tags. naive_solver.
  - intros pg tag. rewrite elem_of_difference, !elem_of_list_to_set.
    rewrite elem_of_compute_new_tags. intros [Hin Hnot].
    destruct (decide (tag ∈ all_tags gene_categories)); [done|].
    exfalso. apply Hnot. by left.
Qed.

(** X13, witness: a simulation counts the tags it would add and remove. *)
Lemma tag_counters_sum_the_differences_witness :
  let run := add_category_tags Notion.service "db" Sample.categories "col" 10 true
                               Sample.database in
  let st := MkStats 2 1 1 2 2 1 1 [] in
  run = (Ok st, run.1.2, run.2)
  ∧ tags_added st = 1 ∧ tags_removed st = 1.
Proof.
  intros run st.
  assert (run = (Ok st, run.1.2, run.2)) as Hrun by (vm_compute; reflexivity).
  split; [exact Hrun|].
  destruct (tag_counters_sum_the_differences Notion.service "db" Sample.categories
              "col" 10 true Sample.database st run.1.2 run.2 Hrun)
    as (Ha & Hr & _).
  split; [rewrite Ha|rewrite Hr]; by vm_compute.
Defined.

(** ** Refused patches *)

Lemma faulty_update_schema_plan (database_id : string)
    (gene_categories : list (string * list string)) (multiselect_column : string)
    (dry_run : bool) (s : Faulty.state) :
  (update_schema Faulty.service database_id gene_categories multiselect_column
                 dry_run s).1.2.1 = s.1.
Proof.
  rewrite update_schema_eq. cbn zeta.
  cbn [get_database patch_database Faulty.service].
  unfold Faulty.get, Faulty.patch_schema.
  destruct (Faulty.fail_get s.1) eqn:Hget; cbn [fst snd].
  { by case_bool_decide. }
  unfold Notion.get. cbn [fst snd Notion.ok status_code json].
  rewrite bool_decide_false by (by intros ?).
  destruct (read_existing_options _ _); [|done].
  destruct (_ && _); [|done].
  by destruct (Faulty.fail_schema_patch s.1).
Qed.

Lemma faulty_query_plan (database_id : string) (page_size : Z)
    (cursor : option string) (s : Faulty.state) :
  (post_query Faulty.service database_id page_size cursor s).2.1 = s.1.
Proof.
  cbn [post_query Faulty.service]. unfold Faulty.query, Notion.query.
  destruct (Faulty.fail_query s.1); [done|]. by case_bool_decide.
Qed.

(** The page loop on the refusing remote: the messages and the count of
    accepted patches. *)
Lemma faulty_process_pages (gene_categories : list (string * list string))
    (multiselect_column : string) (pages : list page) :
  ∀ (stats : Stats) (s : Faulty.state),
  ∃ stats' s' tr,
    process_pages Faulty.service gene_categories multiselect_column false pages
                  stats s = (Ok stats', s', tr)
    ∧ errors stats' =
        errors stats
        ++ ((fun pg => error_message pg "internal_server_error")
              <$> filter (fun pg => page_id pg ∈ Faulty.fail_pages s.1)
                    (stale gene_categories multiselect_column pages))
    ∧ pages_updated stats' =
        pages_updated stats
        + length (filter (fun pg => page_id pg ∉ Faulty.fail_pages s.1)
                    (stale gene_categories multiselect_column pages)).
Proof.
  induction pages as [|pg rest IH]; intros stats s.
  - exists stats, s, []. simpl. split; [done|]. rewrite app_nil_r. split; [done|lia].
  - cbn [process_pages]. unfold bind. rewrite process_page_eq. cbn zeta.
    pose proof (count_identifier_frame gene_categories pg stats)
      as (_ & Hu1 & _ & He1).
    pose proof (count_diff_frame gene_categories multiselect_column pg stats)
      as (_ & Hu2 & _ & He2).
    unfold stale. rewrite filter_cons.
    fold (stale gene_categories multiselect_column rest).
    destruct (needs_update _ _ _ pg) eqn:Hneed.
    + rewrite (decide_True (P := true = true)) by done.
      cbn [patch_page Faulty.service]. unfold Faulty.patch_tags.
      rewrite !filter_cons.
      destruct (decide (page_id pg ∈ Faulty.fail_pages s.1)) as [Hfail|Hfail].
      * rewrite !(bool_decide_true (page_id pg ∈ _)) by done.
        cbn [fst snd Faulty.refuse status_code text].
        rewrite bool_decide_false by done.
        match goal with |- context [process_pages _ _ _ _ rest ?st ?x] =>
          destruct (IH st x) as (st' & s' & tr & -> & He & Hu) end.
        eexists _, _, _. split; [done|].
        rewrite decide_False by (by intros Hn; apply Hn).
        rewrite He, Hu. cbn [errors pages_updated append_error].
        rewrite He2, Hu2, fmap_cons, <- app_assoc. done.
      * rewrite !(bool_decide_false (page_id pg ∈ _)) by done.
        cbn [fst snd Notion.patch_tags Notion.ok status_code text].
        rewrite bool_decide_true by done.
        match goal with |- context [process_pages _ _ _ _ rest ?st ?x] =>
          destruct (IH st x) as (st' & s' & tr & -> & He & Hu) end.
        eexists _, _, _. split; [done|].
        rewrite decide_True by done.
        rewrite He, Hu. cbn [errors pages_updated incr_pages_updated fst length].
        rewrite He2, Hu2. split; [done|lia].
    + rewrite (decide_False (P := false = true)) by done.
      destruct (IH (incr_pages_skipped (count_identifier gene_categories pg stats)) s)
        as (st' & s' & tr & -> & He & Hu).
      eexists _, _, _. split; [done|].
      rewrite He, Hu. cbn [errors pages_updated incr_pages_skipped].
      by rewrite He1, Hu1.
Qed.

(** X14.  Refused patches are recorded, not fatal: on a remote that
    answers 500 to the property patches of chosen records, a real run that
    returns lists, in fetch order, one message per stale record it was
    refused, naming the record and quoting the answer, and counts exactly
    the other stale records as updated. *)
Theorem refused_patches_are_recorded (database_id : string)
    (gene_categories : list (string * list string)) (multiselect_column : string)
    (batch_size : Z) (s : Faulty.state) (stats : Stats) (s' : Faulty.state)
    (tr : list Event) :
  add_category_tags Faulty.service database_id gene_categories multiselect_column
                    batch_size false s = (Ok stats, s', tr) →
  let F := fetched Faulty.service database_id gene_categories multiselect_column
                   batch_size false s in
  errors stats =
    (fun pg => error_message pg "internal_server_error")
      <$> filter (fun pg => page_id pg ∈ Faulty.fail_pages s.1)
            (stale gene_categories multiselect_column F)
  ∧ pages_updated stats =
      length (filter (fun pg => page_id pg ∉ Faulty.fail_pages s.1)
                (stale gene_categories multiselect_column F)).
Proof.
  rewrite add_category_tags_eq. cbn zeta. unfold fetched.
  pose proof (faulty_update_schema_plan database_id gene_categories
                multiselect_column false s) as Hplan1.
  destruct (update_schema _ _ _ _ _ s) as [[[[]|e] s1] tr1]; cbn [fst snd] in *;
    [|done].
  pose proof (faulty_query_plan database_id (Z.min batch_size 100) None s1) as Hplan2.
  case_bool_decide; [done|].
  set (F := results (json _)) in *. set (s2 := (post_query _ _ _ _ _).2) in *.
  destruct (faulty_process_pages gene_categories multiselect_column F
              (init_stats (length F)) s2) as (st' & s3 & tr3 & -> & He & Hu).
  cbn [fst]. intros [= <- <- <-]. cbn zeta.
  rewrite He, Hu, Hplan2, Hplan1. done.
Qed.

(** X14, witness: of three records the last one is refused. *)
Lemma refused_patches_are_recorded_witness :
  let s0 := (Faulty.Plan false false false ["p3"], Sample.database3) in
  let run := add_category_tags Faulty.service "db" Sample.categories "col" 10 false
                               s0 in
  let st := MkStats 3 1 1 2 2 1 2 ["Failed to update page p3: internal_server_error"] in
  run = (Ok st, run.1.2, run.2)
  ∧ errors st = [error_message Sample.anonymous "internal_server_error"]
  ∧ pages_updated st = 1.
Proof.
  intros s0 run st.
  assert (run = (Ok st, run.1.2, run.2)) as Hrun by (vm_compute; reflexivity).
  split; [exact Hrun|].
  destruct (refused_patches_are_recorded "db" Sample.categories "col" 10 s0 st
              run.1.2 run.2 Hrun) as [He Hu].
  split; [rewrite He|rewrite Hu]; by vm_compute.
Defined.

(** ** Rate limiter and run time *)

Section RateLimiterBounds.
Import RateLimiter.
Local Open Scope Q_scope.






End RateLimiterBounds.

(** ** The command-line entry point *)

Lemma filter_patches_rate_limited (gene_categories : list (string * list string))
    (multiselect_column : string) (pages : list page) :
  filter (fun e => is_property_patch e = true)
    (pg ← pages; [Wait; patch_event gene_categories multiselect_column pg])
    = patch_event gene_categories multiselect_column <$> pages.
Proof.
  induction pages as [|pg rest IH]; [done|].
  rewrite bind_cons, filter_app, IH, fmap_cons.
  by rewrite !filter_cons, decide_False, decide_True, filter_nil by done.
Qed.

(** X17.  The command line reconciles the first ten records only: run on a
    remote that accepts every write and whose records have distinct
    identifiers, whatever the arguments and the categories, a run that
    returns leaves the first ten records reconciled in the column
    [protein_gene_sets] and every later record exactly as it was; at most
    ten property patches are sent. *)
Theorem command_line_reconciles_ten_records (args : cli_args)
    (gene_tags : list (string * list string)) (R R' : Notion.state)
    (tr : list Event) :
  NoDup (page_id <$> Notion.db_pages R) →
  add_tags_to_gene_list Notion.service args gene_tags R = (Ok tt, R', tr) →
  Notion.db_pages R' =
    (reconciled gene_tags "protein_gene_sets" <$> take 10 (Notion.db_pages R))
    ++ drop 10 (Notion.db_pages R)
  ∧ length (filter (fun e => is_property_patch e = true) tr) ≤ 10.
Proof.
  intros Hnd. unfold add_tags_to_gene_list, bind.
  destruct (add_category_tags _ _ _ _ _ _ R) as [[[stats|e] R1] tr1] eqn:Hrun;
    [|done].
  cbn [ret]. intros [= <- <-]. rewrite app_nil_r.
  pose proof (run_returned _ _ _ _ _ _ _ _ _ _ Hrun)
    as (_ & _ & _ & _ & _ & _ & _ & Htr).
  pose proof (update_schema_trace Notion.service (arg_database_id args) gene_tags
                "protein_gene_sets" false R) as Hu. cbn zeta in Hu.
  apply add_category_tags_returned in Hrun
    as (s1 & trA & q & s2 & tr3 & Hschema & Hq & Hstatus & Hloop & _).
  unfold fetched in Htr. rewrite Hschema in Htr, Hu. cbn [fst snd] in Htr, Hu.
  rewrite Hq in Htr. cbn [fst] in Htr.
  apply notion_schema_step in Hschema as (Hpages & _).
  cbn [post_query Notion.service] in Hq.
  destruct (notion_query_ok (arg_database_id args) (Z.min 10 100) s1)
    as (more & cursor & Hq1); [done|].
  rewrite Hq1 in Hq. injection Hq as <- <-.
  cbn [json Notion.ok results] in Hloop, Htr.
  change (Z.to_nat (Z.min 10 100)) with 10 in *.
  destruct s1 as [properties pages]. cbn [Notion.db_pages] in *. subst pages.
  destruct (process_pages_reconciles gene_tags "protein_gene_sets" properties
              (take 10 (Notion.db_pages R)) (drop 10 (Notion.db_pages R)) []
              (init_stats (length (take 10 (Notion.db_pages R)))))
    as (st' & tr' & Hloop').
  { cbn [app]. by rewrite take_drop. }
  cbn [app] in Hloop'. rewrite take_drop in Hloop'.
  rewrite Hloop in Hloop'. injection Hloop' as <- -> <-.
  split; [done|].
  rewrite Htr, !filter_app, !length_app, filter_patches_rate_limited, length_fmap.
  assert (length (filter (fun e => is_property_patch e = true) trA) = 0) as ->
    by (destruct Hu as [->|[options ->]]; done).
  change (length (filter (fun e => is_property_patch e = true)
                    [Wait; PostQuery (arg_database_id args) (Z.min 10 100) None]))
    with 0.
  unfold stale.
  pose proof (length_filter
    (fun pg => needs_update (all_tags gene_tags) (gene_to_categories gene_tags)
                 "protein_gene_sets" pg = true) (take 10 (Notion.db_pages R))).
  pose proof (firstn_le_length 10 (Notion.db_pages R)). lia.
Qed.

(** X17, witness: of twelve wrongly tagged records the last two stay wrongly
    tagged, although the column named on the command line is another one. *)
Lemma command_line_reconciles_ten_records_witness :
  let run := add_tags_to_gene_list Notion.service Sample2.args Sample.categories
                                   Sample2.twelve in
  run.1.1 = Ok tt
  ∧ Notion.db_pages run.1.2
    = (reconciled Sample.categories "protein_gene_sets"
         <$> take 10 (Notion.db_pages Sample2.twelve))
      ++ [Sample2.numbered 10; Sample2.numbered 11]
  ∧ length (filter (fun e => is_property_patch e = true) run.2) = 10.
Proof.
  intros run.
  assert (run = (Ok tt, run.1.2, run.2)) as Hrun by (vm_compute; reflexivity).
  assert (NoDup (page_id <$> Notion.db_pages Sample2.twelve)) as Hnd.
  { apply (bool_decide_unpack (NoDup (page_id <$> Notion.db_pages Sample2.twelve))).
    by vm_compute. }
  split; [by rewrite Hrun|].
  split; [|by vm_compute].
  exact (proj1 (command_line_reconciles_ten_records Sample2.args Sample.categories
                  Sample2.twelve run.1.2 run.2 Hnd Hrun)).
Defined.
